(** * github-pr-review-agent.py: a shallow embedding and its verified properties

    The program is one class, [GitHubPRReviewAgent], with three methods:
    [get_pr_details] builds a dictionary snapshot of a pull request,
    [review_pull_request] prompts a completion service with it and decodes the
    answer, and [post_review_comment] renders a review dictionary as a
    Markdown comment.

    Python values are embedded as the inductive [pyval]; exceptions as [exn];
    code that talks to the hosting service runs in a state-and-exception monad
    over the hosting state [hosting].  A Rocq [string] stands for a Python
    [str], one [ascii] per character (code points below 256); every operation
    the claims depend on (concatenation, join, dictionary lookup by key) is
    insensitive to that reading. *)

From Stdlib Require Import ZArith Ascii String List.
From stdpp Require Import base option list strings gmap pretty.

Local Open Scope string_scope.
Local Open Scope Z_scope.
Set Warnings "-register-all".

(** ** Python values *)

(** The values the program handles: what [json.loads] can return and what the
    snapshot dictionary holds.  A float is carried by its printed form, since
    the program only ever prints it.  A dictionary keeps its insertion order,
    as Python's does; its keys are strings here (JSON objects, and the
    snapshot literal of [get_pr_details]). *)
Inductive pyval : Type :=
  | VNone
  | VBool (b : bool)
  | VInt (n : Z)
  | VFloat (printed : string)
  | VStr (s : string)
  | VList (items : list pyval)
  | VDict (entries : list (string * pyval)).

(** The exceptions that the modelled statements can raise. *)
Inductive exn : Type :=
  | NameError (name : string)
  | KeyError (key : string)
  | AttributeError (attr : string)
  | TypeError
  | AssertionError
  | UnknownObjectException
  | CompletionError
  | JSONDecodeError
  | ValueError.

Inductive outcome (A : Type) : Type :=
  | Ret (a : A)
  | Raise (e : exn).
Arguments Ret {A} a.
Arguments Raise {A} e.

(** ** Exceptions without state *)

Module Exc.

Definition bind {A B : Type} (c : outcome A) (k : A -> outcome B) : outcome B :=
  match c with
  | Ret a => k a
  | Raise e => Raise e
  end.

End Exc.

Declare Scope exc_scope.
Delimit Scope exc_scope with exc.
Notation "x <- c ;; k" := (Exc.bind c (fun x => k))
  (at level 100, c at next level, right associativity) : exc_scope.

(** ** Strings *)

(** [sep.join(parts)] on a list of strings. *)
Fixpoint join (sep : string) (parts : list string) : string :=
  match parts with
  | [] => ""
  | [p] => p
  | p :: rest => p +:+ sep +:+ join sep rest
  end.

(** The characters of a string, each as a one-character string: what
    iterating over a [str] yields. *)
Fixpoint chars (s : string) : list string :=
  match s with
  | EmptyString => []
  | String c rest => String c EmptyString :: chars rest
  end.

(** [chr(10)] *)
Definition chr10 : string := String (ascii_of_nat 10) EmptyString.

Definition hex_digit (n : N) : ascii :=
  if (n <? 10)%N then ascii_of_N (48 + n) else ascii_of_N (87 + n).

(** The character is printed as it is by [repr]: printable ASCII, and the
    printable part of Latin-1 (everything from U+00A1 up except the soft
    hyphen). *)
Definition printable (c : ascii) : bool :=
  let n := N_of_ascii c in
  ((32 <=? n) && (n <? 127) || (161 <=? n) && negb (n =? 173))%N.

Definition repr_char (quote c : ascii) : string :=
  let n := N_of_ascii c in
  if (Ascii.eqb c quote || Ascii.eqb c "\")%char then String "\" (String c "")
  else if (n =? 9)%N then "\t"
  else if (n =? 10)%N then "\n"
  else if (n =? 13)%N then "\r"
  else if printable c then String c ""
  else String "\" (String "x" (String (hex_digit (n / 16)) (String (hex_digit (n mod 16)) ""))).

Fixpoint repr_chars (quote : ascii) (s : string) : string :=
  match s with
  | EmptyString => ""
  | String c rest => repr_char quote c +:+ repr_chars quote rest
  end.

Fixpoint contains_char (c : ascii) (s : string) : bool :=
  match s with
  | EmptyString => false
  | String d rest => Ascii.eqb c d || contains_char c rest
  end.

Definition squote : ascii := ascii_of_nat 39.
Definition dquote : ascii := ascii_of_nat 34.

(** [repr] of a [str]: single quotes, unless the text has a single quote and
    no double quote. *)
Definition repr_str (s : string) : string :=
  let quote :=
    if contains_char squote s && negb (contains_char dquote s)
    then dquote else squote in
  String quote (repr_chars quote s +:+ String quote "").

(** ** Built-in operations on values *)

Fixpoint py_repr (v : pyval) : string :=
  match v with
  | VNone => "None"
  | VBool true => "True"
  | VBool false => "False"
  | VInt n => pretty n
  | VFloat printed => printed
  | VStr s => repr_str s
  | VList items => "[" +:+ join ", " (map py_repr items) +:+ "]"
  | VDict entries =>
      "{" +:+ join ", " (map (fun kv => repr_str (fst kv) +:+ ": " +:+ py_repr (snd kv)) entries)
          +:+ "}"
  end.

(** [str(v)], which is what a replacement field of an f-string or of a
    [str.format] template inserts. *)
Definition py_str (v : pyval) : string :=
  match v with
  | VStr s => s
  | _ => py_repr v
  end.

(** Truth value of an object. *)
Definition py_bool (v : pyval) : bool :=
  match v with
  | VNone => false
  | VBool b => b
  | VInt n => negb (n =? 0)
  | VFloat printed => negb (String.eqb printed "0.0" || String.eqb printed "-0.0")
  | VStr s => negb (String.eqb s "")
  | VList items => match items with [] => false | _ => true end
  | VDict entries => match entries with [] => false | _ => true end
  end.

(** [a or b] *)
Definition py_or (a b : pyval) : pyval := if py_bool a then a else b.

(** Lookup of a key in a dictionary's entries. *)
Fixpoint entry (key : string) (entries : list (string * pyval)) : option pyval :=
  match entries with
  | [] => None
  | (k, v) :: rest => if String.eqb k key then Some v else entry key rest
  end.

(** [d[key]] *)
Definition py_getitem (d : pyval) (key : string) : outcome pyval :=
  match d with
  | VDict entries =>
      match entry key entries with
      | Some v => Ret v
      | None => Raise (KeyError key)
      end
  | _ => Raise TypeError
  end.

(** [d.get(key, default)]; only a dictionary has the method. *)
Definition py_get (d : pyval) (key : string) (default : pyval) : outcome pyval :=
  match d with
  | VDict entries =>
      match entry key entries with
      | Some v => Ret v
      | None => Ret default
      end
  | _ => Raise (AttributeError "get")
  end.

(** The items of an iterable must all be strings for [join]. *)
Fixpoint str_items (items : list pyval) : outcome (list string) :=
  match items with
  | [] => Ret []
  | VStr s :: rest =>
      match str_items rest with
      | Ret ss => Ret (s :: ss)
      | Raise e => Raise e
      end
  | _ :: _ => Raise TypeError
  end.

(** [sep.join(v)]: [v] is iterated; a string yields its characters, a
    dictionary its keys; a value that is not iterable is a [TypeError]. *)
Definition py_join (sep : string) (v : pyval) : outcome string :=
  match v with
  | VList items =>
      match str_items items with
      | Ret ss => Ret (join sep ss)
      | Raise e => Raise e
      end
  | VStr s => Ret (join sep (chars s))
  | VDict entries => Ret (join sep (map fst entries))
  | _ => Raise TypeError
  end.

(** ** The hosting service *)

(** A changed file as the client library hands it over.  [patch] is [None]
    when the object has no [patch] attribute at all, the case that
    [hasattr(file, 'patch')] tests; an attribute that is there may still hold
    Python's [None]. *)
Record file : Type := File {
  filename : string;
  status : string;
  patch : option pyval
}.

(** What the service knows of one pull request.  [body] is [None] when the
    service returns no body. *)
Record pull : Type := Pull {
  title : string;
  body : option string;
  user_login : string;
  state : string;
  base_ref : string;
  head_ref : string;
  files : list file
}.

(** The calls of the client that reach the service, one entry per call: a
    listing counts once, though the client fetches it page by page.
    [GetPullTruth] is the lookup made when a truth value is passed for the
    number.  The last call is the only write. *)
Inductive request : Type :=
  | GetPull (repo_name : string) (number : Z)
  | GetPullTruth (repo_name : string) (flag : bool)
  | GetFiles (repo_name : string) (number : Z)
  | CreateIssueComment (repo_name : string) (number : Z) (text : string).

(** The state of the service: pull requests and the comments posted on them,
    both by repository name and number, and the calls received so far. *)
Record hosting : Type := Hosting {
  pulls : gmap (string * Z) pull;
  issue_comments : gmap (string * Z) (list string);
  requests : list request
}.

Definition received (r : request) (h : hosting) : hosting :=
  {| pulls := pulls h; issue_comments := issue_comments h;
     requests := (requests h ++ [r])%list |}.

(** ** Statements that talk to the service *)

Definition M (A : Type) : Type := hosting -> outcome A * hosting.

Definition ret {A : Type} (a : A) : M A := fun h => (Ret a, h).

Definition raise {A : Type} (e : exn) : M A := fun h => (Raise e, h).

Definition bind {A B : Type} (c : M A) (k : A -> M B) : M B :=
  fun h =>
    match c h with
    | (Ret a, h') => k a h'
    | (Raise e, h') => (Raise e, h')
    end.

(** A computation that does not touch the service. *)
Definition pure {A : Type} (c : outcome A) : M A := fun h => (c, h).

Declare Scope host_scope.
Delimit Scope host_scope with host.
Notation "x <- c ;; k" := (bind c (fun x => k))
  (at level 100, c at next level, right associativity) : host_scope.

(** What a name can be bound to: a repository handle of the client library,
    or a plain value. *)
Inductive obj : Type :=
  | Repository (full_name : string)
  | Value (v : pyval).

(** A pull request object: where it came from and the attributes loaded with
    it. *)
Record pull_request : Type := PullRequest {
  pr_repo : string;
  pr_number : Z;
  pr_data : pull
}.

(** [o.get_pull]: only a repository has the method; the bound method
    remembers the repository. *)
Definition attr_get_pull (o : obj) : M string :=
  match o with
  | Repository name => ret name
  | Value _ => raise (AttributeError "get_pull")
  end.

(** [repo.get_pull(number)].  The client asserts that the number is an
    integer, then asks the service, which knows the pull request or not.  A
    truth value passes the assertion, being an integer to Python; the service
    is asked and knows no pull request of that name. *)
Definition get_pull (repo_name : string) (number : obj) : M pull_request :=
  match number with
  | Value (VInt n) =>
      fun h =>
        match pulls h !! (repo_name, n) with
        | Some p => (Ret (PullRequest repo_name n p), received (GetPull repo_name n) h)
        | None => (Raise UnknownObjectException, received (GetPull repo_name n) h)
        end
  | Value (VBool flag) =>
      fun h => (Raise UnknownObjectException, received (GetPullTruth repo_name flag) h)
  | _ => raise AssertionError
  end.

(** [pr.get_files()], iterated to its end: the listing is fetched from the
    service, in its order.  The call is recorded once, however many pages
    the client fetches for it. *)
Definition get_files (pr : pull_request) : M (list file) :=
  fun h =>
    let h' := received (GetFiles (pr_repo pr) (pr_number pr)) h in
    match pulls h !! (pr_repo pr, pr_number pr) with
    | Some p => (Ret (files p), h')
    | None => (Raise UnknownObjectException, h')
    end.

(** [pr.create_issue_comment(text)], the write path of the service.  The
    program has the call commented out (line 171); it is here to say what a
    write is. *)
Definition create_issue_comment (pr : pull_request) (text : string) : M unit :=
  fun h =>
    let key := (pr_repo pr, pr_number pr) in
    (Ret tt,
     {| pulls := pulls h;
        issue_comments := <[key := (default [] (issue_comments h !! key) ++ [text])%list]> (issue_comments h);
        requests := (requests h ++ [CreateIssueComment (pr_repo pr) (pr_number pr) text])%list |}).

(** ** Names *)

(** Reading a name that is neither a local nor a parameter looks it up in the
    module's global names. *)
Definition lookup_name (globals : gmap string obj) (name : string) : M obj :=
  match globals !! name with
  | Some o => ret o
  | None => raise (NameError name)
  end.

(** The global names that the module itself binds (imports, the class and
    [main]); each is bound to something that is not a repository handle, and
    which one does not matter here. *)
Definition module_names : list string :=
  ["os"; "json"; "Dict"; "Any"; "Github"; "ChatNVIDIA"; "ChatOpenAI";
   "ChatPromptTemplate"; "StrOutputParser"; "RunnablePassthrough";
   "GitHubPRReviewAgent"; "main"].

Definition module_globals : gmap string obj :=
  list_to_map (map (fun name => (name, Value VNone)) module_names).

(** ** The agent *)

(** One piece of a prompt template: literal text, or a replacement field
    [{name}]. *)
Inductive segment : Type :=
  | Lit (text : string)
  | Field (name : string).

(** An agent, as the methods use it: the repository handle [self.repo], and
    the completion service [self.llm], which answers a list of (role, text)
    messages with a text or fails. *)
Record GitHubPRReviewAgent : Type := Agent {
  repo : string;
  llm : list (string * string) -> outcome string
}.

(** The template that lines 33-72 write down for [self.review_prompt]: a
    system message and a human message with five replacement fields.  Line
    33 asks the prompt library to build it through [from_message]; whether
    the library does is outside this file, and no property below depends on
    the template, since the chain raises before it is filled. *)
Definition review_prompt : list (string * list segment) :=
  [("system", [Lit "You are an expert code review AI assistant.
            Thoroughly and constructively review GitHub Pull Requests.
            Analyze code quality, potential bugs, security issues, and suggest improvements.

            Review Guidelines:
            1. Provide specific, actionable feedback
            2. Highlight both positive aspects and areas of improvement
            3. Comment on code style, potential optimizations, and best practices
            4. Identify potential security vulnerabilities
            5. Test plan, steps for manual verification, automated tests added or modified and edge cases considered
            6. Suggest alternative implementations if applicable"]);
   ("human",
    [Lit "Perform a comprehensive code review for this Pull Request:

PR Details:
Title: ";
     Field "pr_title";
     Lit "
Description: ";
     Field "pr_description";
     Lit "
Author: ";
     Field "pr_author";
     Lit "
Files Changed: ";
     Field "changed_files";
     Lit "

Code Changes:
";
     Field "code_patches";
     Lit "

Please provide a detailed review addressing:
- Code quality and readability
- Potential bugs or logic errors
- Performance considerations
- Security implications
- Test plan
- Suggested improvements

Respond in a structured valid JSON format with the following keys:
- overall_assessment: Brief overall evaluation
- strengths: List of positive aspects
- concerns: List of potential issues
- recommendations: Specific improvement suggestions
- test_plan: Steps for manual verification and automated tests
- code_quality_score: Numerical score between 1 to 10
"])].

Definition nl : string := chr10.

(** *** [get_pr_details] (lines 74-101) *)

(** Line 89: [file.patch if hasattr(file, 'patch') else "No patch available"]. *)
Definition patch_or_sentinel (f : file) : pyval :=
  match patch f with
  | Some p => p
  | None => VStr "No patch available"
  end.

(** Line 90, the f-string appended for one file. *)
Definition file_block (f : file) : string :=
  "File: " +:+ filename f +:+ nl +:+ "Status: " +:+ status f +:+ nl
    +:+ "Patch:" +:+ nl +:+ py_str (patch_or_sentinel f).

(** Lines 87-90: the loop appends one block per file to [file_patches]. *)
Definition file_patches_loop (listing : list file) : list string :=
  fold_left (fun file_patches f => (file_patches ++ [file_block f])%list) listing [].

Definition opt_str (o : option string) : pyval :=
  match o with
  | Some s => VStr s
  | None => VNone
  end.

(** Lines 92-101, the dictionary that is returned. *)
Definition snapshot (pr : pull) (changed_files : list string) (file_patches : list string)
  : pyval :=
  VDict
    [("title", VStr (title pr));
     ("description", py_or (opt_str (body pr)) (VStr "No description provided"));
     ("author", VStr (user_login pr));
     ("state", VStr (state pr));
     ("base_branch", VStr (base_ref pr));
     ("head_branch", VStr (head_ref pr));
     ("changed_files", VList (map VStr changed_files));
     ("file_patches", VStr (join (nl +:+ nl) file_patches))].

(** The method.  Line 81 reads the names [repo] and [pr_name], which are
    neither parameters nor locals, so they are looked up among the global
    names [globals]; [self] and [pr_number] are not used. *)
Definition get_pr_details (globals : gmap string obj)
    (self : GitHubPRReviewAgent) (pr_number : Z) : M pyval :=
  (r <- lookup_name globals "repo" ;;
   repo_name <- attr_get_pull r ;;
   number <- lookup_name globals "pr_name" ;;
   pr <- get_pull repo_name number ;;
   listing <- get_files pr ;;
   let changed_files := map filename listing in
   listing' <- get_files pr ;;
   let file_patches := file_patches_loop listing' in
   ret (snapshot (pr_data pr) changed_files file_patches))%host.

(** *** [review_pull_request] (lines 103-139) *)

(** Lines 115-121, [RunnablePassthrough.assign(...)] run on [{}]: each
    keyword's function is evaluated and its result stored under the keyword. *)
Definition assign (pr_details : pyval) : outcome pyval :=
  (pr_title <- py_getitem pr_details "title" ;;
   pr_description <- py_getitem pr_details "description" ;;
   pr_author <- py_getitem pr_details "bug" ;;
   changed_files <- (l <- py_getitem pr_details "changed_files" ;; py_join ", " l) ;;
   code_patches <- py_getitem pr_details "file_patches" ;;
   Ret (VDict
          [("pr_title", pr_title);
           ("pr_description", pr_description);
           ("pr_author", pr_author);
           ("changed_files", VStr changed_files);
           ("code_patches", code_patches)]))%exc.

(** Filling a template from a dictionary of inputs. *)
Fixpoint format_template (t : list segment) (inputs : pyval) : outcome string :=
  match t with
  | [] => Ret ""
  | Lit text :: rest =>
      (s <- format_template rest inputs ;; Ret (text +:+ s))%exc
  | Field name :: rest =>
      (v <- py_getitem inputs name ;;
       s <- format_template rest inputs ;;
       Ret (py_str v +:+ s))%exc
  end.

Fixpoint format_messages (prompt : list (string * list segment)) (inputs : pyval)
  : outcome (list (string * string)) :=
  match prompt with
  | [] => Ret []
  | (role, t) :: rest =>
      (text <- format_template t inputs ;;
       messages <- format_messages rest inputs ;;
       Ret ((role, text) :: messages))%exc
  end.

(** Lines 114-128: the chain, invoked once. *)
Definition review_chain (self : GitHubPRReviewAgent) (pr_details : pyval) : outcome string :=
  (inputs <- assign pr_details ;;
   messages <- format_messages review_prompt inputs ;;
   llm self messages)%exc.

(** Lines 134-137. *)
Definition unparsed_review (review_str : string) : pyval :=
  VDict
    [("overall_assessment", VStr "Unable to parse review details");
     ("raw_review", VStr review_str)].

(** *** [post_review_comment] (lines 141-171) *)

(** Lines 151-169, the literal text of the f-string around its seven
    replacement fields. *)
Definition comment_text
    (number overall_assessment strengths concerns recommendations test_plan
       code_quality_score : string) : string :=
  "## PR Review for #" +:+ number +:+ nl +:+ nl
  +:+ "### Overall Assessment" +:+ nl +:+ overall_assessment +:+ nl +:+ nl
  +:+ "### Strengths" +:+ nl +:+ strengths +:+ nl +:+ nl
  +:+ "### Concerns" +:+ nl +:+ concerns +:+ nl +:+ nl
  +:+ "### Recommendations" +:+ nl +:+ recommendations +:+ nl +:+ nl
  +:+ "### Testing Suggestions" +:+ nl +:+ test_plan +:+ nl +:+ nl
  +:+ "### Code Quality Score: " +:+ code_quality_score +:+ "/10" +:+ nl.

(** Lines 151-169, the f-string bound to [comment]: the replacement fields are
    evaluated from left to right, then put into the text. *)
Definition comment (pr_number : Z) (review_dict : pyval) : outcome string :=
  (overall_assessment <-
     py_get review_dict "overall_assessment" (VStr "No overall assessment provided") ;;
   strengths <-
     (l <- py_get review_dict "strengths" (VList [VStr "No specific strengths noted"]) ;;
      py_join chr10 l) ;;
   concerns <-
     (l <- py_get review_dict "concerns" (VList [VStr "No specific concerns identified"]) ;;
      py_join chr10 l) ;;
   recommendations <-
     (l <- py_get review_dict "recommendations" (VList [VStr "No specific recommendations"]) ;;
      py_join chr10 l) ;;
   test_plan <-
     (l <- py_get review_dict "test_plan" (VList [VStr "No specific recommendations"]) ;;
      py_join chr10 l) ;;
   code_quality_score <- py_get review_dict "code_quality_score" (VStr "N/A") ;;
   Ret (comment_text (pretty pr_number) (py_str overall_assessment) strengths concerns
          recommendations test_plan (py_str code_quality_score)))%exc.

(** The method: the pull request is fetched, the comment is formatted, and
    nothing is done with it, since the call that would post it is commented
    out (line 171).  The method returns [None]. *)
Definition post_review_comment (self : GitHubPRReviewAgent) (pr_number : Z)
    (review_dict : pyval) : M pyval :=
  (pr <- get_pull (repo self) (Value (VInt pr_number)) ;;
   text <- pure (comment pr_number review_dict) ;;
   ret VNone)%host.

Section Decoder.

(** [json.loads] of the standard library, on a [str]: it returns the decoded
    value or raises. *)
Variable json_loads : string -> outcome pyval.

(** Lines 130-139: the [try] statement and the [return]. *)
Definition parse_json_response (review_str : string) : outcome pyval :=
  match json_loads review_str with
  | Ret review_dict => Ret review_dict
  | Raise JSONDecodeError => Ret (unparsed_review review_str)
  | Raise e => Raise e
  end.

Definition review_pull_request (globals : gmap string obj)
    (self : GitHubPRReviewAgent) (pr_number : Z) : M pyval :=
  (pr_details <- get_pr_details globals self pr_number ;;
   review_str <- pure (review_chain self pr_details) ;;
   pure (parse_json_response review_str))%host.

End Decoder.

(** ** A decoder for sample texts

    A decoder of JSON texts to try the theorems on concrete texts; the
    theorems themselves are stated for every decoder.  It follows the grammar
    that the standard library's [json.loads] accepts, and it is not
    [json.loads]: [decode] gives no answer for a text whose value [pyval]
    cannot hold (a finite float, whose printed form is not computed here, or
    a character beyond U+00FF), nor for a text long or nested enough to meet
    the interpreter's limits, where [json.loads] raises [ValueError] or
    [RecursionError].  A scan either gets a value and the rest of the text,
    or finds the text malformed; a value that [pyval] cannot hold is marked
    inexact and the scan goes on, since the text may still turn out
    malformed. *)
Module Json.

Inductive scanned (A : Type) : Type :=
  | Got (a : A) (exact : bool) (rest : string)
  | Malformed
  | OutOfFuel.
Arguments Got {A} a exact rest.
Arguments Malformed {A}.
Arguments OutOfFuel {A}.

Definition is_ws (c : ascii) : bool :=
  let n := N_of_ascii c in
  ((n =? 32) || (n =? 9) || (n =? 10) || (n =? 13))%N.

Fixpoint skip_ws (s : string) : string :=
  match s with
  | String c rest => if is_ws c then skip_ws rest else s
  | EmptyString => s
  end.

Definition is_digit (c : ascii) : bool :=
  let n := N_of_ascii c in ((48 <=? n) && (n <=? 57))%N.

Definition hex_value (c : ascii) : option N :=
  let n := N_of_ascii c in
  if ((48 <=? n) && (n <=? 57))%N then Some (n - 48)%N
  else if ((97 <=? n) && (n <=? 102))%N then Some (n - 87)%N
  else if ((65 <=? n) && (n <=? 70))%N then Some (n - 55)%N
  else None.

Definition hex4 (a b c d : ascii) : option N :=
  match hex_value a, hex_value b, hex_value c, hex_value d with
  | Some x, Some y, Some z, Some w => Some (((x * 16 + y) * 16 + z) * 16 + w)%N
  | _, _, _, _ => None
  end.

(** The character that a one-letter escape stands for. *)
Definition simple_escape (c : ascii) : option ascii :=
  let n := N_of_ascii c in
  if (n =? 34)%N then Some c
  else if (n =? 92)%N then Some c
  else if (n =? 47)%N then Some c
  else if (n =? 98)%N then Some (ascii_of_N 8)
  else if (n =? 102)%N then Some (ascii_of_N 12)
  else if (n =? 110)%N then Some (ascii_of_N 10)
  else if (n =? 114)%N then Some (ascii_of_N 13)
  else if (n =? 116)%N then Some (ascii_of_N 9)
  else None.

Definition snoc (s : string) (c : ascii) : string := s +:+ String c "".

(** A string, from just after its opening quote. *)
Fixpoint scan_string (s : string) (acc : string) (exact : bool) : scanned string :=
  match s with
  | EmptyString => Malformed
  | String c rest =>
      if Ascii.eqb c dquote then Got acc exact rest
      else if Ascii.eqb c "\" then
        match rest with
        | EmptyString => Malformed
        | String e rest' =>
            if Ascii.eqb e "u" then
              match rest' with
              | String h1 (String h2 (String h3 (String h4 rest''))) =>
                  match hex4 h1 h2 h3 h4 with
                  | Some code =>
                      if (code <? 256)%N
                      then scan_string rest'' (snoc acc (ascii_of_N code)) exact
                      else scan_string rest'' (snoc acc "?") false
                  | None => Malformed
                  end
              | _ => Malformed
              end
            else
              match simple_escape e with
              | Some ch => scan_string rest' (snoc acc ch) exact
              | None => Malformed
              end
        end
      else if (N_of_ascii c <? 32)%N then Malformed
      else scan_string rest (snoc acc c) exact
  end.

Fixpoint take_digits (s : string) : string * string :=
  match s with
  | String c rest =>
      if is_digit c
      then let (ds, rest') := take_digits rest in (String c ds, rest')
      else ("", s)
  | EmptyString => ("", s)
  end.

Fixpoint digits_value (ds : string) (acc : Z) : Z :=
  match ds with
  | String c rest => digits_value rest (10 * acc + Z.of_N (N_of_ascii c - 48))
  | EmptyString => acc
  end.

(** A fraction [.ddd], when there is one. *)
Definition take_frac (s : string) : string * string :=
  match s with
  | String "." rest =>
      match take_digits rest with
      | (String d ds, rest') => (String "." (String d ds), rest')
      | _ => ("", s)
      end
  | _ => ("", s)
  end.

(** An exponent [e+ddd], when there is one. *)
Definition take_exp (s : string) : string * string :=
  match s with
  | String c rest =>
      if Ascii.eqb c "e" || Ascii.eqb c "E" then
        let (sign, rest1) :=
          match rest with
          | String "+" r => ("+", r)
          | String "-" r => ("-", r)
          | _ => ("", rest)
          end in
        match take_digits rest1 with
        | (String d ds, rest') => (String c (sign +:+ String d ds), rest')
        | _ => ("", s)
        end
      else ("", s)
  | EmptyString => ("", s)
  end.

(** A number: an optional sign, [0] or a digit other than [0] and more
    digits, then an optional fraction and exponent, which make it a float. *)
Definition scan_number (s : string) : scanned pyval :=
  let (sign, s1) :=
    match s with
    | String "-" r => ("-", r)
    | _ => ("", s)
    end in
  match s1 with
  | String c r =>
      if is_digit c then
        let (ds, r1) :=
          if Ascii.eqb c "0" then ("", r) else take_digits r in
        let int_part := String c ds in
        let (frac, r2) := take_frac r1 in
        let (exp, r3) := take_exp r2 in
        match frac, exp with
        | EmptyString, EmptyString =>
            let n := digits_value int_part 0 in
            Got (VInt (if String.eqb sign "-" then - n else n)) true r3
        | _, _ => Got (VFloat (sign +:+ int_part +:+ frac +:+ exp)) false r3
        end
      else Malformed
  | EmptyString => Malformed
  end.

Fixpoint strip_prefix (p s : string) : option string :=
  match p, s with
  | EmptyString, _ => Some s
  | String a p', String b s' => if Ascii.eqb a b then strip_prefix p' s' else None
  | String _ _, EmptyString => None
  end.

(** [dict] built from pairs: a key seen again keeps its place and takes the
    new value. *)
Fixpoint dict_set (key : string) (v : pyval) (entries : list (string * pyval))
  : list (string * pyval) :=
  match entries with
  | [] => [(key, v)]
  | (k, w) :: rest =>
      if String.eqb k key then (k, v) :: rest else (k, w) :: dict_set key v rest
  end.

Definition constant (s : string) : scanned pyval :=
  match strip_prefix "null" s, strip_prefix "true" s, strip_prefix "false" s with
  | Some r, _, _ => Got VNone true r
  | _, Some r, _ => Got (VBool true) true r
  | _, _, Some r => Got (VBool false) true r
  | _, _, _ =>
      match scan_number s with
      | Got v e r => Got v e r
      | _ =>
          match strip_prefix "NaN" s, strip_prefix "Infinity" s, strip_prefix "-Infinity" s with
          | Some r, _, _ => Got (VFloat "nan") true r
          | _, Some r, _ => Got (VFloat "inf") true r
          | _, _, Some r => Got (VFloat "-inf") true r
          | _, _, _ => Malformed
          end
      end
  end.

(** One value at the start of [s]; the items of an array, from its first
    value; the members of an object, from the quote of its first key. *)
Fixpoint scan_once (fuel : nat) (s : string) {struct fuel} : scanned pyval :=
  match fuel with
  | O => OutOfFuel
  | S fuel' =>
      match s with
      | EmptyString => Malformed
      | String c rest =>
          if Ascii.eqb c dquote then
            match scan_string rest "" true with
            | Got k e r => Got (VStr k) e r
            | Malformed => Malformed
            | OutOfFuel => OutOfFuel
            end
          else if Ascii.eqb c "{" then
            match skip_ws rest with
            | String "}" r => Got (VDict []) true r
            | members => scan_object fuel' members [] true
            end
          else if Ascii.eqb c "[" then
            match skip_ws rest with
            | String "]" r => Got (VList []) true r
            | items => scan_array fuel' items [] true
            end
          else constant s
      end
  end
with scan_array (fuel : nat) (s : string) (acc : list pyval) (exact : bool)
    {struct fuel} : scanned pyval :=
  match fuel with
  | O => OutOfFuel
  | S fuel' =>
      match scan_once fuel' s with
      | Got v e r =>
          match skip_ws r with
          | String "]" r' => Got (VList (acc ++ [v])%list) (exact && e) r'
          | String "," r' => scan_array fuel' (skip_ws r') (acc ++ [v])%list (exact && e)
          | _ => Malformed
          end
      | Malformed => Malformed
      | OutOfFuel => OutOfFuel
      end
  end
with scan_object (fuel : nat) (s : string) (acc : list (string * pyval)) (exact : bool)
    {struct fuel} : scanned pyval :=
  match fuel with
  | O => OutOfFuel
  | S fuel' =>
      match s with
      | String c r =>
          if Ascii.eqb c dquote then
            match scan_string r "" true with
            | Got k e1 r1 =>
                match skip_ws r1 with
                | String ":" r2 =>
                    match scan_once fuel' (skip_ws r2) with
                    | Got v e2 r3 =>
                        let acc' := dict_set k v acc in
                        let exact' := exact && e1 && e2 in
                        match skip_ws r3 with
                        | String "}" r4 => Got (VDict acc') exact' r4
                        | String "," r4 => scan_object fuel' (skip_ws r4) acc' exact'
                        | _ => Malformed
                        end
                    | Malformed => Malformed
                    | OutOfFuel => OutOfFuel
                    end
                | _ => Malformed
                end
            | Malformed => Malformed
            | OutOfFuel => OutOfFuel
            end
          else Malformed
      | EmptyString => Malformed
      end
  end.

Fixpoint openings (s : string) : nat :=
  match s with
  | EmptyString => O
  | String c rest =>
      if (Ascii.eqb c "[" || Ascii.eqb c "{")%bool then S (openings rest) else openings rest
  end.

(** Short and shallow enough to stay clear of the interpreter's limits on
    the digits of an integer and on the depth of nesting. *)
Definition within_limits (s : string) : bool :=
  (String.length s <=? 4300)%nat && (openings s <=? 100)%nat.

(** The whole text: white space, one value, white space, and nothing else.
    [None] when the value is one that [pyval] cannot hold, or the text is
    not within the limits. *)
Definition decode (s : string) : option (outcome pyval) :=
  if negb (within_limits s) then None else
  match scan_once (2 * String.length s + 2) (skip_ws s) with
  | Got v exact rest =>
      match skip_ws rest with
      | EmptyString => if exact then Some (Ret v) else None
      | String _ _ => Some (Raise JSONDecodeError)
      end
  | Malformed => Some (Raise JSONDecodeError)
  | OutOfFuel => None
  end.

(** A total function out of [decode], to stand for the decoder in examples:
    it agrees with [json.loads] on the texts that [decode] answers, and
    counts the others as malformed, which [json.loads] does not do; no
    example below uses one of those. *)
Definition loads (s : string) : outcome pyval :=
  default (Raise JSONDecodeError) (decode s).

End Json.

(** Quoting for JSON texts in examples. *)
Definition q (s : string) : string := String dquote s +:+ String dquote "".

(** What a list section of the comment holds, given the review dictionary:
    the default sentence when the field is absent, and the entries joined by
    newlines when the field is a list of texts. *)
Definition list_section (review_dict : list (string * pyval))
    (field default section_body : string) : Prop :=
  (entry field review_dict = None -> section_body = default)
  /\ (forall texts,
        entry field review_dict = Some (VList (map VStr texts)) ->
        section_body = join nl texts).

(** A test for a text inside another. *)
Fixpoint occurs (needle hay : string) : bool :=
  String.prefix needle hay ||
  match hay with
  | String _ rest => occurs needle rest
  | EmptyString => false
  end.

(** ** A sample pull request

    Pull request 42 of [octo/demo]: two changed files, the second without a
    [patch] attribute, and no body. *)
Module Demo.

Definition a_py : file :=
  {| filename := "a.py"; status := "modified"; patch := Some (VStr "@@ -1 +1 @@") |}.

Definition b_py : file :=
  {| filename := "b.py"; status := "added"; patch := None |}.

Definition pr42 : pull :=
  {| title := "Fix off-by-one"; body := None; user_login := "octocat";
     state := "open"; base_ref := "main"; head_ref := "fix";
     files := [a_py; b_py] |}.

Definition host : hosting :=
  {| pulls := {[ ("octo/demo", 42) := pr42 ]}; issue_comments := ∅; requests := [] |}.

(** An agent whose completion service answers in prose. *)
Definition agent : GitHubPRReviewAgent :=
  {| repo := "octo/demo"; llm := fun _ => Ret "LGTM, ship it" |}.

(** Global names as they are when something outside the module has bound
    [repo] and [pr_name]. *)
Definition bound_globals : gmap string obj :=
  <["repo" := Repository "octo/demo"]> (<["pr_name" := Value (VInt 42)]> module_globals).

Definition details : pyval :=
  VDict
    [("title", VStr "Fix off-by-one");
     ("description", VStr "No description provided");
     ("author", VStr "octocat");
     ("state", VStr "open");
     ("base_branch", VStr "main");
     ("head_branch", VStr "fix");
     ("changed_files", VList [VStr "a.py"; VStr "b.py"]);
     ("file_patches",
      VStr ("File: a.py" +:+ nl +:+ "Status: modified" +:+ nl +:+ "Patch:" +:+ nl
            +:+ "@@ -1 +1 @@" +:+ nl +:+ nl
            +:+ "File: b.py" +:+ nl +:+ "Status: added" +:+ nl +:+ "Patch:" +:+ nl
            +:+ "No patch available"))].

End Demo.

(** ** More of the program, for the properties below *)

(** A request that only reads. *)
Definition is_read (r : request) : bool :=
  match r with
  | GetPull _ _ => true
  | GetPullTruth _ _ => true
  | GetFiles _ _ => true
  | CreateIssueComment _ _ _ => false
  end.

(** One list field of the comment, as each of lines 157, 160, 163 and 166 has
    it: [chr(10).join(review_dict.get(field, [default]))]. *)
Definition joined_field (review_dict : pyval) (field default : string) : outcome string :=
  (l <- py_get review_dict field (VList [VStr default]) ;; py_join chr10 l)%exc.

(** What [join] accepts: a list of texts, a text, or a dictionary. *)
Definition is_text (v : pyval) : bool :=
  match v with
  | VStr _ => true
  | _ => false
  end.

Definition joinable (v : pyval) : bool :=
  match v with
  | VList items => forallb is_text items
  | VStr _ => true
  | VDict _ => true
  | _ => false
  end.

(** What a list section of the comment holds when the field is not a list:
    the characters of a text, and the keys of a dictionary, one per line. *)
Definition iterated_section (review_dict : list (string * pyval))
    (field section_body : string) : Prop :=
  (forall text,
     entry field review_dict = Some (VStr text) -> section_body = join nl (chars text))
  /\ (forall entries,
        entry field review_dict = Some (VDict entries) ->
        section_body = join nl (map fst entries)).

(** The keys that the comment reads. *)
Definition comment_keys : list string :=
  ["overall_assessment"; "strengths"; "concerns"; "recommendations"; "test_plan";
   "code_quality_score"].

(** *** The constructor's signature (lines 15-18) and [main] (lines 174-197) *)

(** What is passed to the constructor: a text, or a language model. *)
Inductive arg : Type :=
  | AStr (s : string)
  | AModel (model : list (string * string) -> outcome string).

Fixpoint keyword_value {A : Type} (name : string) (kwargs : list (string * A)) : option A :=
  match kwargs with
  | [] => None
  | (k, v) :: rest => if String.eqb k name then Some v else keyword_value name rest
  end.

Fixpoint parameter_values {A : Type} (params : list string) (kwargs : list (string * A))
  : outcome (list A) :=
  match params with
  | [] => Ret []
  | p :: rest =>
      match keyword_value p kwargs with
      | Some v => (vs <- parameter_values rest kwargs ;; Ret (v :: vs))%exc
      | None => Raise TypeError
      end
  end.

(** A call with keyword arguments only, of a function whose parameters have
    no defaults: a keyword that names no parameter is a [TypeError], and so
    is a parameter left without a value. *)
Definition bind_arguments {A : Type} (params : list string) (kwargs : list (string * A))
  : outcome (list A) :=
  if forallb (fun kv => existsb (String.eqb (fst kv)) params) kwargs
  then parameter_values params kwargs
  else Raise TypeError.

(** [os.getenv(key, default)] *)
Definition getenv (environ : gmap string string) (key : string) (default : pyval) : pyval :=
  match environ !! key with
  | Some v => VStr v
  | None => default
  end.

(** [os.environ[key]] *)
Definition environ_item (environ : gmap string string) (key : string) : outcome string :=
  match environ !! key with
  | Some v => Ret v
  | None => Raise (KeyError key)
  end.

Section Script.

Variable json_loads : string -> outcome pyval.

(** The global names of the module when [main] runs. *)
Variable globals : gmap string obj.

(** [ChatOpenAI(model=..., temperature=..., openai_api_key=...,
    openai_api_base=...)], of the completion library. *)
Variable ChatOpenAI :
  pyval -> pyval -> pyval -> pyval -> outcome (list (string * string) -> outcome string).

(** The body of [__init__] (lines 26-72), which calls the client library and
    the prompt library, on the values of [github_token], [repo_name] and
    [llmn]. *)
Variable init_body : list arg -> M GitHubPRReviewAgent.

(** [int(text)] and [json.dumps(value, indent=2)], of the standard library. *)
Variable int : string -> outcome Z.
Variable json_dumps : pyval -> outcome string.

(** A call of the class with keyword arguments: they are bound to the
    parameters of [__init__] (lines 15-18), then its body runs. *)
Definition init (kwargs : list (string * arg)) : M GitHubPRReviewAgent :=
  (args <- pure (bind_arguments ["github_token"; "repo_name"; "llmn"] kwargs) ;;
   init_body args)%host.

(** [main]; its result here is the list of the lines it prints. *)
Definition main (environ : gmap string string) : M (list string) :=
  (llm <- pure (ChatOpenAI
                  (getenv environ "MODEL"
                     (VStr "/var/home/cloud-user/.cache/instructlab/models/granite-7b-redhat-lab"))
                  (VFloat "0.2")
                  (getenv environ "API_KEY" VNone)
                  (getenv environ "LLM_ENDPOINT" VNone)) ;;
   github_token <- pure (environ_item environ "GITHUB_TOKEN") ;;
   repo_name <- pure (environ_item environ "REPO_NAME") ;;
   pr_review_agent <-
     init [("github_token", AStr github_token); ("repo_name", AStr repo_name);
           ("llm", AModel llm)] ;;
   pr_num <- pure (environ_item environ "PR_NUM") ;;
   pr_number <- pure (int pr_num) ;;
   review_result <- review_pull_request json_loads globals pr_review_agent pr_number ;;
   printed <- pure (json_dumps review_result) ;;
   _ <- post_review_comment pr_review_agent pr_number review_result ;;
   ret [printed])%host.

End Script.

(** ** More samples *)
Module Sample.

(** A file whose [patch] attribute is there and holds [None], as for a binary
    file. *)
Definition logo_png : file :=
  {| filename := "logo.png"; status := "added"; patch := Some VNone |}.

Definition pr7 : pull :=
  {| title := "Add logo"; body := Some "Adds the logo."; user_login := "mona";
     state := "open"; base_ref := "main"; head_ref := "logo";
     files := [logo_png] |}.

Definition host : hosting :=
  {| pulls := {[ ("octo/demo", 7) := pr7 ]}; issue_comments := ∅; requests := [] |}.

(** Global names with [repo] and [pr_name] bound, to pull request 7 and to
    pull request 8, which the service does not know. *)
Definition globals7 : gmap string obj :=
  <["repo" := Repository "octo/demo"]> (<["pr_name" := Value (VInt 7)]> module_globals).

Definition globals8 : gmap string obj :=
  <["repo" := Repository "octo/demo"]> (<["pr_name" := Value (VInt 8)]> module_globals).

(** Global names with [repo] bound and [pr_name] not. *)
Definition globals_repo_only : gmap string obj :=
  <["repo" := Repository "octo/demo"]> module_globals.

(** A snapshot-like dictionary that also has the key [bug]. *)
Definition with_bug : pyval :=
  VDict
    [("title", VStr "Fix off-by-one");
     ("description", VStr "No description provided");
     ("bug", VStr "octocat");
     ("changed_files", VList [VStr "a.py"; VStr "b.py"]);
     ("file_patches", VStr "File: a.py")].

(** An agent whose completion service answers with a JSON array. *)
Definition array_agent : GitHubPRReviewAgent :=
  {| repo := "octo/demo"; llm := fun _ => Ret "[1, 2]" |}.

End Sample.

(** * Properties *)

(** ** Lists and strings *)

Lemma fold_append_map {A B : Type} (f : A -> B) (l : list A) (acc : list B) :
  fold_left (fun out x => (out ++ [f x])%list) l acc = (acc ++ map f l)%list.
Proof.
  revert acc. induction l as [|x l IH]; intros acc; simpl.
  - by rewrite app_nil_r.
  - rewrite IH, <- app_assoc. reflexivity.
Qed.

Lemma file_patches_loop_map (listing : list file) :
  file_patches_loop listing = map file_block listing.
Proof. unfold file_patches_loop. by rewrite fold_append_map. Qed.

(** ** Reads of the service *)

Lemma pulls_received r h : pulls (received r h) = pulls h.
Proof. reflexivity. Qed.

Lemma issue_comments_received r h : issue_comments (received r h) = issue_comments h.
Proof. reflexivity. Qed.

Lemma get_pull_found repo_name n h pr :
  pulls h !! (repo_name, n) = Some pr ->
  get_pull repo_name (Value (VInt n)) h
  = (Ret (PullRequest repo_name n pr), received (GetPull repo_name n) h).
Proof. intros Hpr. unfold get_pull. by rewrite Hpr. Qed.

Lemma get_pull_unknown repo_name n h :
  pulls h !! (repo_name, n) = None ->
  get_pull repo_name (Value (VInt n)) h
  = (Raise UnknownObjectException, received (GetPull repo_name n) h).
Proof. intros Hpr. unfold get_pull. by rewrite Hpr. Qed.

Lemma get_files_found repo_name n data h pr :
  pulls h !! (repo_name, n) = Some pr ->
  get_files (PullRequest repo_name n data) h
  = (Ret (files pr), received (GetFiles repo_name n) h).
Proof. intros Hpr. unfold get_files. simpl. by rewrite Hpr. Qed.

(** The state after the three reads of [get_pr_details]. *)
Definition after_reads (repo_name : string) (n : Z) (h : hosting) : hosting :=
  received (GetFiles repo_name n)
    (received (GetFiles repo_name n) (received (GetPull repo_name n) h)).

(** When the two names are bound and the service knows the pull request,
    [get_pr_details] returns the snapshot of that pull request. *)
Lemma get_pr_details_bound globals self number h repo_name n pr :
  globals !! "repo" = Some (Repository repo_name) ->
  globals !! "pr_name" = Some (Value (VInt n)) ->
  pulls h !! (repo_name, n) = Some pr ->
  get_pr_details globals self number h
  = (Ret (snapshot pr (map filename (files pr)) (map file_block (files pr))),
     after_reads repo_name n h).
Proof.
  intros Hrepo Hname Hpr.
  unfold get_pr_details, bind, lookup_name. rewrite Hrepo, Hname.
  cbn -[get_pull get_files snapshot file_patches_loop].
  rewrite (get_pull_found _ _ _ _ Hpr).
  rewrite (get_files_found _ _ _ _ pr) by (by rewrite pulls_received).
  rewrite (get_files_found _ _ _ _ pr) by (by rewrite !pulls_received).
  by rewrite file_patches_loop_map.
Qed.

(** And it returns in no other case. *)
Lemma get_pr_details_inv globals self number h d h' :
  get_pr_details globals self number h = (Ret d, h') ->
  exists repo_name n pr,
    globals !! "repo" = Some (Repository repo_name) /\
    globals !! "pr_name" = Some (Value (VInt n)) /\
    pulls h !! (repo_name, n) = Some pr /\
    d = snapshot pr (map filename (files pr)) (map file_block (files pr)) /\
    h' = after_reads repo_name n h.
Proof.
  intros Hret.
  destruct (globals !! "repo") as [[repo_name|v]|] eqn:Hrepo;
    [| by (unfold get_pr_details, bind, lookup_name in Hret; rewrite Hrepo in Hret) ..].
  destruct (globals !! "pr_name") as [[x|[]]|] eqn:Hname;
    try by (unfold get_pr_details, bind, lookup_name in Hret;
            rewrite Hrepo, Hname in Hret).
  destruct (pulls h !! (repo_name, n)) as [pr|] eqn:Hpr.
  - rewrite (get_pr_details_bound _ _ _ _ _ _ _ Hrepo Hname Hpr) in Hret.
    injection Hret as <- <-. by exists repo_name, n, pr.
  - unfold get_pr_details, bind, lookup_name in Hret.
    rewrite Hrepo, Hname in Hret.
    cbn -[get_pull get_files snapshot file_patches_loop] in Hret.
    by rewrite (get_pull_unknown _ _ _ Hpr) in Hret.
Qed.

Lemma module_globals_repo : module_globals !! "repo" = None.
Proof. reflexivity. Qed.

Lemma demo_details :
  get_pr_details Demo.bound_globals Demo.agent 42 Demo.host
  = (Ret Demo.details, after_reads "octo/demo" 42 Demo.host).
Proof. vm_compute. reflexivity. Qed.

(** In a proof about the sample, the pull request that was read is the
    sample's. *)
Ltac demo_pull Hrepo Hname Hpr :=
  let E := fresh in
  assert (Demo.bound_globals !! "repo" = Some (Repository "octo/demo")) as E
    by reflexivity;
  rewrite E in Hrepo; clear E; injection Hrepo as <-;
  assert (Demo.bound_globals !! "pr_name" = Some (Value (VInt 42))) as E
    by reflexivity;
  rewrite E in Hname; clear E; injection Hname as <-;
  assert (pulls Demo.host !! ("octo/demo", 42) = Some Demo.pr42) as E by reflexivity;
  rewrite E in Hpr; clear E; injection Hpr as <-.

(** A failed lookup is passed on as it is, after one request: no second try
    and no snapshot. *)
Lemma get_pr_details_unknown globals self number h repo_name n :
  globals !! "repo" = Some (Repository repo_name) ->
  globals !! "pr_name" = Some (Value (VInt n)) ->
  pulls h !! (repo_name, n) = None ->
  get_pr_details globals self number h
  = (Raise UnknownObjectException, received (GetPull repo_name n) h).
Proof.
  intros Hrepo Hname Hpr.
  unfold get_pr_details, bind, lookup_name. rewrite Hrepo, Hname.
  cbn -[get_pull get_files snapshot file_patches_loop].
  by rewrite (get_pull_unknown _ _ _ Hpr).
Qed.

(** ** [get_pr_details] *)

(** C2.  The claim: [get_pr_details] asks the service for the pull request
    whose number it is given, and fails only when that lookup fails.  The
    code does not: with the global names of the module as it stands, every
    call raises [NameError] for [repo] before any request is sent, whatever
    the number and whether or not the service knows it; and under any global
    names the outcome does not depend on the agent or on the number given. *)
Theorem get_pr_details_ignores_its_number :
  (forall self pr_number h,
     get_pr_details module_globals self pr_number h = (Raise (NameError "repo"), h))
  /\ (forall globals self self' pr_number pr_number' h,
        get_pr_details globals self pr_number h
        = get_pr_details globals self' pr_number' h)
  /\ (exists d h',
        get_pr_details Demo.bound_globals Demo.agent 7 Demo.host = (Ret d, h')
        /\ pulls Demo.host !! (repo Demo.agent, 7) = None
        /\ py_getitem d "title" = Ret (VStr (title Demo.pr42))).
Proof.
  split; [|split].
  - intros self pr_number h.
    unfold get_pr_details, bind, lookup_name. by rewrite module_globals_repo.
  - reflexivity.
  - eexists _, _. split; [|split]; [vm_compute; reflexivity | reflexivity | reflexivity].
Qed.

(** C4.  Whenever [get_pr_details] returns a snapshot, its [file_patches] is
    the join, by a blank line, of exactly one block per file of the service's
    listing, in the order of the listing, each block of the form
    [File: <path>\nStatus: <status>\nPatch:\n<patch-or-sentinel>]. *)
Theorem file_patches_one_block_per_file globals self number h d h' :
  get_pr_details globals self number h = (Ret d, h') ->
  exists repo_name n pr blocks,
    globals !! "repo" = Some (Repository repo_name)
    /\ globals !! "pr_name" = Some (Value (VInt n))
    /\ pulls h !! (repo_name, n) = Some pr
    /\ py_getitem d "file_patches" = Ret (VStr (join (nl +:+ nl) blocks))
    /\ length blocks = length (files pr)
    /\ forall (i : nat) f,
         files pr !! i = Some f ->
         blocks !! i
         = Some ("File: " +:+ filename f +:+ nl +:+ "Status: " +:+ status f +:+ nl
                 +:+ "Patch:" +:+ nl
                 +:+ match patch f with
                     | Some p => py_str p
                     | None => "No patch available"
                     end).
Proof.
  intros Hret.
  destruct (get_pr_details_inv _ _ _ _ _ _ Hret)
    as (repo_name & n & pr & Hrepo & Hname & Hpr & -> & _).
  exists repo_name, n, pr, (map file_block (files pr)).
  repeat split; try assumption.
  - apply length_map.
  - intros i f Hf. rewrite list_lookup_fmap, Hf. simpl.
    unfold file_block, patch_or_sentinel. by destruct (patch f).
Qed.

Lemma file_patches_one_block_per_file_witness :
  get_pr_details Demo.bound_globals Demo.agent 42 Demo.host
  = (Ret Demo.details, after_reads "octo/demo" 42 Demo.host)
  /\ exists blocks,
       py_getitem Demo.details "file_patches" = Ret (VStr (join (nl +:+ nl) blocks))
       /\ length blocks = 2%nat.
Proof.
  pose proof demo_details as Hret.
  split; [exact Hret|].
  destruct (file_patches_one_block_per_file _ _ _ _ _ _ Hret)
    as (repo_name & n & pr & blocks & Hrepo & Hname & Hpr & Hd & Hlen & _).
  exists blocks. split; [exact Hd|].
  demo_pull Hrepo Hname Hpr.
  exact Hlen.
Defined.

(** An attribute that is there and holds [None] is not replaced: the block
    then ends in the text [None]. *)
Lemma none_patch_is_printed (f : file) :
  patch f = Some VNone ->
  file_block f
  = "File: " +:+ filename f +:+ nl +:+ "Status: " +:+ status f +:+ nl
    +:+ "Patch:" +:+ nl +:+ "None".
Proof. intros Hp. unfold file_block, patch_or_sentinel. by rewrite Hp. Qed.

(** When a file of the listing has no [patch] attribute at all, which is the
    case that line 89 tests, the patch text of its block is the sentinel. *)
Theorem absent_patch_is_the_sentinel globals self number h d h' :
  get_pr_details globals self number h = (Ret d, h') ->
  exists repo_name n pr blocks,
    globals !! "repo" = Some (Repository repo_name)
    /\ globals !! "pr_name" = Some (Value (VInt n))
    /\ pulls h !! (repo_name, n) = Some pr
    /\ py_getitem d "file_patches" = Ret (VStr (join (nl +:+ nl) blocks))
    /\ forall (i : nat) f,
         files pr !! i = Some f ->
         patch f = None ->
         patch_or_sentinel f = VStr "No patch available"
         /\ patch_or_sentinel f <> VStr ""
         /\ patch_or_sentinel f <> VNone
         /\ blocks !! i
            = Some ("File: " +:+ filename f +:+ nl +:+ "Status: " +:+ status f +:+ nl
                    +:+ "Patch:" +:+ nl +:+ "No patch available").
Proof.
  intros Hret.
  destruct (get_pr_details_inv _ _ _ _ _ _ Hret)
    as (repo_name & n & pr & Hrepo & Hname & Hpr & -> & _).
  exists repo_name, n, pr, (map file_block (files pr)).
  do 4 (split; [assumption || reflexivity|]).
  intros i f Hf Hpatch.
  assert (patch_or_sentinel f = VStr "No patch available") as Hsentinel
    by (unfold patch_or_sentinel; by rewrite Hpatch).
  rewrite Hsentinel. repeat split; try discriminate.
  rewrite list_lookup_fmap, Hf. simpl.
  unfold file_block. by rewrite Hsentinel.
Qed.

Lemma absent_patch_is_the_sentinel_witness :
  get_pr_details Demo.bound_globals Demo.agent 42 Demo.host
  = (Ret Demo.details, after_reads "octo/demo" 42 Demo.host)
  /\ exists blocks,
       py_getitem Demo.details "file_patches" = Ret (VStr (join (nl +:+ nl) blocks))
       /\ blocks !! 1%nat
          = Some ("File: b.py" +:+ nl +:+ "Status: added" +:+ nl
                  +:+ "Patch:" +:+ nl +:+ "No patch available").
Proof.
  pose proof demo_details as Hret.
  split; [exact Hret|].
  destruct (absent_patch_is_the_sentinel _ _ _ _ _ _ Hret)
    as (repo_name & n & pr & blocks & Hrepo & Hname & Hpr & Hd & Hblocks).
  exists blocks. split; [exact Hd|].
  demo_pull Hrepo Hname Hpr.
  apply (Hblocks 1%nat Demo.b_py); reflexivity.
Defined.

Lemma string_app_cancel (a x y : string) : a +:+ x = a +:+ y -> x = y.
Proof.
  induction a as [|c a IH]; [done|].
  change (String c (a +:+ x) = String c (a +:+ y) -> x = y).
  intros [= Heq]. by apply IH.
Qed.

(** C5.  The claim: for a file for which the service sends no diff, the patch
    text of the block is the sentinel, never empty and never a null value.
    The code does not do that.  Such a file has a [patch] attribute that
    holds [None], so the test of line 89 finds the attribute, the value put
    in the block is [None] itself, and the block ends in the text [None]
    where the sentinel should be. *)
Theorem file_without_diff_is_printed_as_None globals self number h d h' :
  get_pr_details globals self number h = (Ret d, h') ->
  exists repo_name n pr blocks,
    globals !! "repo" = Some (Repository repo_name)
    /\ globals !! "pr_name" = Some (Value (VInt n))
    /\ pulls h !! (repo_name, n) = Some pr
    /\ py_getitem d "file_patches" = Ret (VStr (join (nl +:+ nl) blocks))
    /\ forall (i : nat) f,
         files pr !! i = Some f ->
         patch f = Some VNone ->
         patch_or_sentinel f = VNone
         /\ blocks !! i
            = Some ("File: " +:+ filename f +:+ nl +:+ "Status: " +:+ status f +:+ nl
                    +:+ "Patch:" +:+ nl +:+ "None")
         /\ blocks !! i
            <> Some ("File: " +:+ filename f +:+ nl +:+ "Status: " +:+ status f +:+ nl
                     +:+ "Patch:" +:+ nl +:+ "No patch available").
Proof.
  intros Hret.
  destruct (get_pr_details_inv _ _ _ _ _ _ Hret)
    as (repo_name & n & pr & Hrepo & Hname & Hpr & -> & _).
  exists repo_name, n, pr, (map file_block (files pr)).
  do 4 (split; [assumption || reflexivity|]).
  intros i f Hf Hpatch.
  assert (patch_or_sentinel f = VNone) as Hnone
    by (unfold patch_or_sentinel; by rewrite Hpatch).
  assert (map file_block (files pr) !! i
          = Some ("File: " +:+ filename f +:+ nl +:+ "Status: " +:+ status f +:+ nl
                  +:+ "Patch:" +:+ nl +:+ "None")) as Hblock
    by (rewrite list_lookup_fmap, Hf; simpl; unfold file_block; by rewrite Hnone).
  split; [exact Hnone|]. split; [exact Hblock|].
  rewrite Hblock. intros [= Heq].
  do 7 apply string_app_cancel in Heq. discriminate.
Qed.

Lemma file_without_diff_is_printed_as_None_witness :
  exists d h' blocks,
    get_pr_details Sample.globals7 Demo.agent 7 Sample.host = (Ret d, h')
    /\ py_getitem d "file_patches" = Ret (VStr (join (nl +:+ nl) blocks))
    /\ blocks !! 0%nat
       = Some ("File: logo.png" +:+ nl +:+ "Status: added" +:+ nl
               +:+ "Patch:" +:+ nl +:+ "None").
Proof.
  assert (get_pr_details Sample.globals7 Demo.agent 7 Sample.host
          = (Ret (snapshot Sample.pr7 ["logo.png"] [file_block Sample.logo_png]),
             after_reads "octo/demo" 7 Sample.host)) as Hret
    by (vm_compute; reflexivity).
  destruct (file_without_diff_is_printed_as_None _ _ _ _ _ _ Hret)
    as (repo_name & n & pr & blocks & Hrepo & Hname & Hpr & Hd & Hnone).
  eexists _, _, blocks. split; [exact Hret|]. split; [exact Hd|].
  assert (Sample.globals7 !! "repo" = Some (Repository "octo/demo")) as E by reflexivity.
  rewrite E in Hrepo. injection Hrepo as <-. clear E.
  assert (Sample.globals7 !! "pr_name" = Some (Value (VInt 7))) as E by reflexivity.
  rewrite E in Hname. injection Hname as <-. clear E.
  assert (pulls Sample.host !! ("octo/demo", 7) = Some Sample.pr7) as E by reflexivity.
  rewrite E in Hpr. injection Hpr as <-. clear E.
  apply (Hnone 0%nat Sample.logo_png); reflexivity.
Defined.

(** C8.  The snapshot's [description] is [No description provided] when the
    service returns no body or an empty one, and the body otherwise. *)
Theorem description_defaults_when_body_is_empty globals self number h d h' :
  get_pr_details globals self number h = (Ret d, h') ->
  exists repo_name n pr,
    globals !! "repo" = Some (Repository repo_name)
    /\ globals !! "pr_name" = Some (Value (VInt n))
    /\ pulls h !! (repo_name, n) = Some pr
    /\ (body pr = None \/ body pr = Some "" ->
        py_getitem d "description" = Ret (VStr "No description provided"))
    /\ (forall text, body pr = Some text -> text <> "" ->
        py_getitem d "description" = Ret (VStr text)).
Proof.
  intros Hret.
  destruct (get_pr_details_inv _ _ _ _ _ _ Hret)
    as (repo_name & n & pr & Hrepo & Hname & Hpr & -> & _).
  exists repo_name, n, pr. repeat split; try assumption.
  - intros [Hb | Hb]; simpl; by rewrite Hb.
  - intros text Hb Hne. simpl. rewrite Hb. unfold py_or. simpl.
    destruct (String.eqb_spec text ""); [contradiction | reflexivity].
Qed.

Lemma description_defaults_when_body_is_empty_witness :
  get_pr_details Demo.bound_globals Demo.agent 42 Demo.host
  = (Ret Demo.details, after_reads "octo/demo" 42 Demo.host)
  /\ py_getitem Demo.details "description" = Ret (VStr "No description provided").
Proof.
  pose proof demo_details as Hret.
  split; [exact Hret|].
  destruct (description_defaults_when_body_is_empty _ _ _ _ _ _ Hret)
    as (repo_name & n & pr & Hrepo & Hname & Hpr & Hdefault & _).
  demo_pull Hrepo Hname Hpr.
  apply Hdefault. left. reflexivity.
Defined.

(** ** [review_pull_request] *)

(** The snapshot literal has eight keys, and [bug] is not one of them. *)
Lemma assign_snapshot pr changed_files file_patches :
  assign (snapshot pr changed_files file_patches) = Raise (KeyError "bug").
Proof. reflexivity. Qed.

Lemma review_chain_snapshot agent pr changed_files file_patches :
  review_chain agent (snapshot pr changed_files file_patches) = Raise (KeyError "bug").
Proof. unfold review_chain. by rewrite assign_snapshot. Qed.

(** C3.  The claim: the request is built with the snapshot's author as
    [pr_author].  The code does not build it: the function for [pr_author]
    subscripts the snapshot with the key [bug], which no snapshot of
    [get_pr_details] has, so the chain raises [KeyError] for every snapshot,
    before the prompt is filled and before the completion service is called.
    The author is in the snapshot, under [author]. *)
Theorem pr_author_reads_a_missing_key globals self number h d h' agent :
  get_pr_details globals self number h = (Ret d, h') ->
  py_getitem d "bug" = Raise (KeyError "bug")
  /\ assign d = Raise (KeyError "bug")
  /\ review_chain agent d = Raise (KeyError "bug")
  /\ exists repo_name n pr,
       pulls h !! (repo_name, n) = Some pr
       /\ py_getitem d "author" = Ret (VStr (user_login pr)).
Proof.
  intros Hret.
  destruct (get_pr_details_inv _ _ _ _ _ _ Hret)
    as (repo_name & n & pr & Hrepo & Hname & Hpr & -> & _).
  split; [reflexivity|].
  split; [apply assign_snapshot|].
  split; [apply review_chain_snapshot|].
  by exists repo_name, n, pr.
Qed.

Lemma pr_author_reads_a_missing_key_witness :
  get_pr_details Demo.bound_globals Demo.agent 42 Demo.host
  = (Ret Demo.details, after_reads "octo/demo" 42 Demo.host)
  /\ review_chain Demo.agent Demo.details = Raise (KeyError "bug").
Proof.
  split; [exact demo_details|].
  exact (proj1 (proj2 (proj2
    (pr_author_reads_a_missing_key _ _ _ _ _ _ Demo.agent demo_details)))).
Defined.

(** So [review_pull_request] returns for no input at all: it raises at line
    81, or else at line 118, and the statements after the chain are not
    reached. *)
Lemma review_pull_request_raises json_loads globals self number h :
  exists e h', review_pull_request json_loads globals self number h = (Raise e, h').
Proof.
  unfold review_pull_request, bind.
  destruct (get_pr_details globals self number h) as [[d|e] h'] eqn:Hret.
  - destruct (get_pr_details_inv _ _ _ _ _ _ Hret)
      as (repo_name & n & pr & _ & _ & _ & -> & _).
    unfold pure. rewrite review_chain_snapshot. eauto.
  - eauto.
Qed.

(** What the statements after the chain do with its text is the function
    [parse_json_response]. *)
Lemma review_pull_request_stages json_loads globals self number :
  review_pull_request json_loads globals self number
  = (pr_details <- get_pr_details globals self number ;;
     review_str <- pure (review_chain self pr_details) ;;
     pure (parse_json_response json_loads review_str))%host.
Proof. reflexivity. Qed.

(** The statements of lines 130-139 on their own: a decoded value is returned
    as it is, a decode error gives the fallback record, and an exception of
    another class is not caught. *)
Lemma parse_json_response_cases (json_loads : string -> outcome pyval) review_str :
  (forall v, json_loads review_str = Ret v ->
     parse_json_response json_loads review_str = Ret v)
  /\ (json_loads review_str = Raise JSONDecodeError ->
      parse_json_response json_loads review_str = Ret (unparsed_review review_str))
  /\ (forall e, json_loads review_str = Raise e -> e <> JSONDecodeError ->
      parse_json_response json_loads review_str = Raise e).
Proof.
  unfold parse_json_response. split; [|split].
  - by intros v ->.
  - by intros ->.
  - intros e -> Hne. by destruct e.
Qed.

(** C1.  The claim: when the text of the completion service cannot be
    decoded, [review_pull_request] produces the fallback record, and parsing
    never raises.  The code does not: [review_pull_request] returns the
    fallback record for no input.  With an agent whose service answers every
    prompt with prose, which is not JSON, the call raises [KeyError] for
    [bug] when the names [repo] and [pr_name] are bound, and [NameError] for
    [repo] with the module's own names: the service is not asked and nothing
    is decoded.  And the [except] clause of line 133 names the decode error
    only, so an exception of another class raised by the decoder leaves the
    parsing statements. *)
Theorem fallback_record_is_never_returned :
  (forall json_loads globals self number h review_str h',
     review_pull_request json_loads globals self number h
     <> (Ret (unparsed_review review_str), h'))
  /\ (forall messages, llm Demo.agent messages = Ret "LGTM, ship it")
  /\ Json.loads "LGTM, ship it" = Raise JSONDecodeError
  /\ review_pull_request Json.loads Demo.bound_globals Demo.agent 42 Demo.host
     = (Raise (KeyError "bug"), after_reads "octo/demo" 42 Demo.host)
  /\ (forall h,
        review_pull_request Json.loads module_globals Demo.agent 42 h
        = (Raise (NameError "repo"), h))
  /\ (forall json_loads review_str e,
        json_loads review_str = Raise e -> e <> JSONDecodeError ->
        parse_json_response json_loads review_str = Raise e).
Proof.
  split; [|split; [|split; [|split; [|split]]]].
  - intros json_loads globals self number h review_str h' Hret.
    destruct (review_pull_request_raises json_loads globals self number h)
      as (e & h'' & Hraise).
    rewrite Hraise in Hret. discriminate.
  - reflexivity.
  - vm_compute. reflexivity.
  - vm_compute. reflexivity.
  - intros h. unfold review_pull_request, get_pr_details, bind, lookup_name.
    by rewrite module_globals_repo.
  - intros json_loads review_str e.
    apply (proj2 (proj2 (parse_json_response_cases json_loads review_str))).
Qed.

Lemma fallback_record_is_never_returned_witness :
  parse_json_response (fun _ => Raise ValueError) "LGTM, ship it" = Raise ValueError.
Proof.
  apply (proj2 (proj2 (proj2 (proj2 (proj2 fallback_record_is_never_returned))))
           (fun _ => Raise ValueError) "LGTM, ship it" ValueError);
    [reflexivity | discriminate].
Defined.

(** C10.  The claim: when the text of the completion service is valid JSON
    and not an object, [review_pull_request] returns the decoded value.  The
    code does not: [review_pull_request] returns no value for any input.
    With an agent whose service answers every prompt with a JSON array, the
    call raises [KeyError] for [bug] when the names [repo] and [pr_name] are
    bound, and [NameError] for [repo] with the module's own names: the
    service is not asked and the array is never decoded. *)
Theorem decoded_array_is_never_returned :
  (forall json_loads globals self number h v h',
     review_pull_request json_loads globals self number h <> (Ret v, h'))
  /\ (forall messages, llm Sample.array_agent messages = Ret "[1, 2]")
  /\ Json.loads "[1, 2]" = Ret (VList [VInt 1; VInt 2])
  /\ review_pull_request Json.loads Demo.bound_globals Sample.array_agent 42 Demo.host
     = (Raise (KeyError "bug"), after_reads "octo/demo" 42 Demo.host)
  /\ (forall h,
        review_pull_request Json.loads module_globals Sample.array_agent 42 h
        = (Raise (NameError "repo"), h)).
Proof.
  split; [|split; [|split; [|split]]].
  - intros json_loads globals self number h v h' Hret.
    destruct (review_pull_request_raises json_loads globals self number h)
      as (e & h'' & Hraise).
    rewrite Hraise in Hret. discriminate.
  - reflexivity.
  - vm_compute. reflexivity.
  - vm_compute. reflexivity.
  - intros h. unfold review_pull_request, get_pr_details, bind, lookup_name.
    by rewrite module_globals_repo.
Qed.

(** ** [post_review_comment] *)

Lemma string_app_assoc (a b c : string) : (a +:+ b) +:+ c = a +:+ (b +:+ c).
Proof.
  induction a as [|x a IH]; [reflexivity|].
  change (String x ((a +:+ b) +:+ c) = String x (a +:+ (b +:+ c))).
  by rewrite IH.
Qed.

Lemma str_items_texts (texts : list string) : str_items (map VStr texts) = Ret texts.
Proof. induction texts as [|t texts IH]; simpl; [reflexivity | by rewrite IH]. Qed.

Lemma py_join_texts sep (texts : list string) :
  py_join sep (VList (map VStr texts)) = Ret (join sep texts).
Proof. unfold py_join. by rewrite str_items_texts. Qed.

(** One list section of the comment, as the f-string computes it: the default
    when the key is absent, the entries joined by newlines when they are
    texts. *)
Lemma list_section_body review_dict field default :
  (forall v, entry field review_dict = Some v -> exists texts, v = VList (map VStr texts)) ->
  exists section_body,
    (l <- py_get (VDict review_dict) field (VList [VStr default]) ;; py_join chr10 l)%exc
    = Ret section_body
    /\ list_section review_dict field default section_body.
Proof.
  intros Htexts. unfold py_get, list_section.
  destruct (entry field review_dict) as [v|] eqn:Hentry.
  - destruct (Htexts v eq_refl) as [texts ->].
    exists (join chr10 texts). simpl. rewrite str_items_texts.
    split; [reflexivity|]. split; [discriminate|].
    intros texts' [= Heq]. apply (f_equal str_items) in Heq.
    rewrite !str_items_texts in Heq. by injection Heq as ->.
  - exists default. split; [reflexivity|]. split; [reflexivity | discriminate].
Qed.

(** A value that is not a dictionary has no [get]: the comment of an array,
    a number or a string is never formatted. *)
Lemma comment_of_non_dict pr_number v :
  (forall entries, v <> VDict entries) ->
  comment pr_number v = Raise (AttributeError "get").
Proof. intros Hnot. destruct v; try reflexivity. by destruct (Hnot entries). Qed.

(** C6, as amended.  For a review dictionary whose list fields, where
    present, are lists of texts, rendering raises nothing, and each of the
    four list sections holds the field's default sentence when the field is
    absent and the field's entries joined by newlines when it is present; so
    a field that is present and empty gives an empty section. *)
Theorem absent_list_field_renders_default pr_number review_dict :
  (forall field v,
     In field ["strengths"; "concerns"; "recommendations"; "test_plan"] ->
     entry field review_dict = Some v ->
     exists texts, v = VList (map VStr texts)) ->
  exists overall strengths concerns recommendations test_plan score,
    comment pr_number (VDict review_dict)
    = Ret (comment_text (pretty pr_number) overall strengths concerns recommendations
             test_plan score)
    /\ list_section review_dict "strengths" "No specific strengths noted" strengths
    /\ list_section review_dict "concerns" "No specific concerns identified" concerns
    /\ list_section review_dict "recommendations" "No specific recommendations"
         recommendations
    /\ list_section review_dict "test_plan" "No specific recommendations" test_plan.
Proof.
  intros Htexts.
  destruct (list_section_body review_dict "strengths" "No specific strengths noted")
    as (strengths & Es & Hs); [intros v; apply Htexts; simpl; tauto|].
  destruct (list_section_body review_dict "concerns" "No specific concerns identified")
    as (concerns & Ec & Hc); [intros v; apply Htexts; simpl; tauto|].
  destruct (list_section_body review_dict "recommendations" "No specific recommendations")
    as (recommendations & Er & Hr); [intros v; apply Htexts; simpl; tauto|].
  destruct (list_section_body review_dict "test_plan" "No specific recommendations")
    as (test_plan & Et & Ht); [intros v; apply Htexts; simpl; tauto|].
  unfold comment. rewrite Es, Ec, Er, Et.
  unfold py_get.
  destruct (entry "overall_assessment" review_dict) as [a|];
    destruct (entry "code_quality_score" review_dict) as [s|]; simpl;
    eexists _, strengths, concerns, recommendations, test_plan, _; eauto.
Qed.

Lemma absent_list_field_renders_default_witness :
  exists overall strengths concerns recommendations test_plan score,
    comment 42 (VDict [("overall_assessment", VStr "Looks good");
                       ("concerns", VList [VStr "No tests"; VStr "Long function"]);
                       ("code_quality_score", VInt 8)])
    = Ret (comment_text "42" overall strengths concerns recommendations test_plan score)
    /\ strengths = "No specific strengths noted"
    /\ concerns = "No tests" +:+ nl +:+ "Long function".
Proof.
  destruct (absent_list_field_renders_default 42
              [("overall_assessment", VStr "Looks good");
               ("concerns", VList [VStr "No tests"; VStr "Long function"]);
               ("code_quality_score", VInt 8)])
    as (overall & strengths & concerns & recommendations & test_plan & score
        & Hcomment & Hs & Hc & _).
  - intros field v [<- | [<- | [<- | [<- | []]]]]; simpl; try discriminate.
    intros [= <-]. by exists ["No tests"; "Long function"].
  - exists overall, strengths, concerns, recommendations, test_plan, score.
    split; [exact Hcomment|]. split.
    + by apply Hs.
    + by apply (proj2 Hc ["No tests"; "Long function"]).
Defined.

(** C6, as stated, fails: a review whose [strengths] is present and empty is
    rendered with an empty Strengths section, and the default sentence is
    nowhere in the comment. *)
Lemma empty_strengths_renders_empty_section :
  entry "strengths" [("strengths", VList [])] = Some (VList [])
  /\ exists text,
       comment 42 (VDict [("strengths", VList [])]) = Ret text
       /\ occurs ("### Strengths" +:+ nl +:+ nl +:+ nl +:+ "### Concerns") text = true
       /\ occurs "No specific strengths noted" text = false.
Proof.
  split; [reflexivity|]. eexists. split; [reflexivity|].
  split; vm_compute; reflexivity.
Qed.

Lemma bind_ret_inv {A B : Type} (c : outcome A) (k : A -> outcome B) (b : B) :
  Exc.bind c k = Ret b -> exists a, c = Ret a /\ k a = Ret b.
Proof. destruct c as [a|e]; simpl; [eauto | discriminate]. Qed.

(** Whenever the comment is formatted, it is the literal text around the
    number, the two scalar fields as [str] prints them, and four joined
    sections. *)
Lemma comment_inv pr_number review_dict text :
  comment pr_number (VDict review_dict) = Ret text ->
  exists strengths concerns recommendations test_plan,
    text
    = comment_text (pretty pr_number)
        (py_str (default (VStr "No overall assessment provided")
                   (entry "overall_assessment" review_dict)))
        strengths concerns recommendations test_plan
        (py_str (default (VStr "N/A") (entry "code_quality_score" review_dict))).
Proof.
  unfold comment. intros Htext.
  apply bind_ret_inv in Htext as (a & Ha & Htext).
  apply bind_ret_inv in Htext as (strengths & _ & Htext).
  apply bind_ret_inv in Htext as (concerns & _ & Htext).
  apply bind_ret_inv in Htext as (recommendations & _ & Htext).
  apply bind_ret_inv in Htext as (test_plan & _ & Htext).
  apply bind_ret_inv in Htext as (s & Hs & Htext).
  injection Htext as <-. exists strengths, concerns, recommendations, test_plan.
  unfold py_get in Ha, Hs.
  destruct (entry "overall_assessment" review_dict);
    destruct (entry "code_quality_score" review_dict);
    injection Ha as <-; injection Hs as <-; reflexivity.
Qed.

(** The comment ends with the score line. *)
Lemma comment_text_score_line number overall strengths concerns recommendations
    test_plan score :
  exists before,
    comment_text number overall strengths concerns recommendations test_plan score
    = before +:+ nl +:+ "### Code Quality Score: " +:+ score +:+ "/10" +:+ nl.
Proof.
  exists ("## PR Review for #" +:+ number +:+ nl +:+ nl
          +:+ "### Overall Assessment" +:+ nl +:+ overall +:+ nl +:+ nl
          +:+ "### Strengths" +:+ nl +:+ strengths +:+ nl +:+ nl
          +:+ "### Concerns" +:+ nl +:+ concerns +:+ nl +:+ nl
          +:+ "### Recommendations" +:+ nl +:+ recommendations +:+ nl +:+ nl
          +:+ "### Testing Suggestions" +:+ nl +:+ test_plan +:+ nl).
  unfold comment_text. by rewrite !string_app_assoc.
Qed.

(** C7.  In every rendered comment the last line is the score line: it reads
    [N/A/10] when the review has no [code_quality_score], and the value as
    [str] prints it, followed by [/10], when it has one; the value 7 gives
    [7/10]. *)
Theorem score_line_is_value_or_na pr_number review_dict text :
  comment pr_number (VDict review_dict) = Ret text ->
  (entry "code_quality_score" review_dict = None ->
     exists before, text = before +:+ nl +:+ "### Code Quality Score: N/A/10" +:+ nl)
  /\ (forall v, entry "code_quality_score" review_dict = Some v ->
        exists before,
          text = before +:+ nl +:+ "### Code Quality Score: " +:+ py_str v +:+ "/10" +:+ nl)
  /\ (entry "code_quality_score" review_dict = Some (VInt 7) ->
        exists before, text = before +:+ nl +:+ "### Code Quality Score: 7/10" +:+ nl).
Proof.
  intros Htext.
  destruct (comment_inv _ _ _ Htext)
    as (strengths & concerns & recommendations & test_plan & ->).
  split; [|split].
  - intros ->. apply comment_text_score_line.
  - intros v ->. apply comment_text_score_line.
  - intros ->. apply comment_text_score_line.
Qed.

Lemma score_line_is_value_or_na_witness :
  exists text,
    comment 42 (VDict [("overall_assessment", VStr "Looks good");
                       ("code_quality_score", VInt 7)]) = Ret text
    /\ exists before, text = before +:+ nl +:+ "### Code Quality Score: 7/10" +:+ nl.
Proof.
  eexists. split; [reflexivity|].
  refine (proj2 (proj2 (score_line_is_value_or_na 42
                          [("overall_assessment", VStr "Looks good");
                           ("code_quality_score", VInt 7)] _ eq_refl)) eq_refl).
Defined.

(** The write that the method does not make would change the service. *)
Lemma create_issue_comment_posts pr text h :
  issue_comments (create_issue_comment pr text h).2 !! (pr_repo pr, pr_number pr)
  = Some (default [] (issue_comments h !! (pr_repo pr, pr_number pr)) ++ [text])%list.
Proof. unfold create_issue_comment. simpl. apply lookup_insert_eq. Qed.

(** C9.  Whatever the review and the number, and whether the call returns or
    raises, [post_review_comment] leaves the pull requests and the posted
    comments of the service as they were; the only request the service
    receives is the read of the pull request. *)
Theorem post_review_comment_posts_nothing self pr_number review_dict h :
  pulls (post_review_comment self pr_number review_dict h).2 = pulls h
  /\ issue_comments (post_review_comment self pr_number review_dict h).2 = issue_comments h
  /\ requests (post_review_comment self pr_number review_dict h).2
     = (requests h ++ [GetPull (repo self) pr_number])%list.
Proof.
  unfold post_review_comment, bind, get_pull, pure, ret.
  destruct (pulls h !! (repo self, pr_number)) as [pr|];
    [destruct (comment pr_number review_dict) as [text|e]|]; by simpl.
Qed.

(** ** Samples *)

(** The sample of the specification, end to end from the answer of the
    completion service: the answer decodes, and the comment shows its
    assessment and score and the defaults elsewhere. *)
Example sample_answer_rendered :
  parse_json_response Json.loads
    ("{" +:+ q "overall_assessment" +:+ ":" +:+ q "Looks good" +:+ ","
         +:+ q "code_quality_score" +:+ ":8}")
  = Ret (VDict [("overall_assessment", VStr "Looks good"); ("code_quality_score", VInt 8)])
  /\ comment 42 (VDict [("overall_assessment", VStr "Looks good");
                        ("code_quality_score", VInt 8)])
     = Ret (comment_text "42" "Looks good" "No specific strengths noted"
              "No specific concerns identified" "No specific recommendations"
              "No specific recommendations" "8").
Proof. split; vm_compute; reflexivity. Qed.

(** The fallback record renders with the fixed message as its assessment. *)
Example unparsed_review_rendered review_str :
  comment 42 (unparsed_review review_str)
  = Ret (comment_text "42" "Unable to parse review details" "No specific strengths noted"
           "No specific concerns identified" "No specific recommendations"
           "No specific recommendations" "N/A").
Proof. reflexivity. Qed.

(** * Further properties *)

(** ** [get_pr_details] *)

(** X1.  [get_pr_details] returns a snapshot exactly when the global name
    [repo] is bound to a repository, the global name [pr_name] to an integer,
    and the service knows the pull request of that number in that
    repository. *)
Theorem get_pr_details_returns_iff globals self number h :
  (exists d h', get_pr_details globals self number h = (Ret d, h'))
  <-> (exists repo_name n,
         globals !! "repo" = Some (Repository repo_name)
         /\ globals !! "pr_name" = Some (Value (VInt n))
         /\ is_Some (pulls h !! (repo_name, n))).
Proof.
  split.
  - intros (d & h' & Hret).
    destruct (get_pr_details_inv _ _ _ _ _ _ Hret)
      as (repo_name & n & pr & Hrepo & Hname & Hpr & _).
    exists repo_name, n. rewrite Hpr. eauto.
  - intros (repo_name & n & Hrepo & Hname & [pr Hpr]).
    rewrite (get_pr_details_bound _ self number _ _ _ _ Hrepo Hname Hpr). eauto.
Qed.

(** The state differs from [h] by the requests [reads] only. *)
Ltac only_reads reads :=
  cbn -[snapshot file_patches_loop];
  split; [reflexivity|]; split; [reflexivity|];
  exists reads; rewrite <- ?app_assoc, ?app_nil_r;
  split; reflexivity.

(** X2.  Whatever the global names and the state of the service, and whether
    it returns or raises, [get_pr_details] changes nothing at the service: the
    pull requests and the posted comments are as before, and every call it
    adds to those the service has received is a read. *)
Theorem get_pr_details_only_reads globals self number h :
  pulls (get_pr_details globals self number h).2 = pulls h
  /\ issue_comments (get_pr_details globals self number h).2 = issue_comments h
  /\ exists reads,
       requests (get_pr_details globals self number h).2 = (requests h ++ reads)%list
       /\ forallb is_read reads = true.
Proof.
  destruct (globals !! "repo") as [[repo_name|v]|] eqn:Hrepo;
    [| unfold get_pr_details, bind, lookup_name; rewrite Hrepo;
       only_reads (@nil request) ..].
  destruct (globals !! "pr_name") as [[x|[]]|] eqn:Hname;
    try (unfold get_pr_details, bind, lookup_name; rewrite Hrepo, Hname;
         first [only_reads (@nil request) | only_reads [GetPullTruth repo_name b]]).
  destruct (pulls h !! (repo_name, n)) as [pr|] eqn:Hpr.
  - rewrite (get_pr_details_bound _ _ _ _ _ _ _ Hrepo Hname Hpr).
    only_reads [GetPull repo_name n; GetFiles repo_name n; GetFiles repo_name n].
  - rewrite (get_pr_details_unknown _ _ _ _ _ _ Hrepo Hname Hpr).
    only_reads [GetPull repo_name n].
Qed.

(** X3.  When the two names are bound and the service does not know the pull
    request, [get_pr_details] raises the client's exception after a single
    request: the lookup is not tried again and no snapshot is made up. *)
Theorem unknown_pull_request_is_not_retried globals self number h repo_name n :
  globals !! "repo" = Some (Repository repo_name) ->
  globals !! "pr_name" = Some (Value (VInt n)) ->
  pulls h !! (repo_name, n) = None ->
  get_pr_details globals self number h
  = (Raise UnknownObjectException,
     {| pulls := pulls h; issue_comments := issue_comments h;
        requests := (requests h ++ [GetPull repo_name n])%list |}).
Proof.
  intros Hrepo Hname Hpr.
  unfold get_pr_details, bind, lookup_name. rewrite Hrepo, Hname.
  cbn -[get_pull get_files snapshot file_patches_loop].
  by rewrite (get_pull_unknown _ _ _ Hpr).
Qed.

Lemma unknown_pull_request_is_not_retried_witness :
  get_pr_details Sample.globals8 Demo.agent 8 Sample.host
  = (Raise UnknownObjectException,
     {| pulls := pulls Sample.host; issue_comments := issue_comments Sample.host;
        requests := [GetPull "octo/demo" 8] |}).
Proof.
  apply (unknown_pull_request_is_not_retried Sample.globals8 Demo.agent 8 Sample.host
           "octo/demo" 8); reflexivity.
Defined.

(** X4.  In a snapshot, the title, author, state and the two branch names are
    the service's, and [changed_files] is the list of the file names of the
    listing, in its order: one name per file, as many as there are blocks in
    [file_patches]. *)
Theorem snapshot_mirrors_the_pull_request globals self number h d h' :
  get_pr_details globals self number h = (Ret d, h') ->
  exists repo_name n pr,
    globals !! "repo" = Some (Repository repo_name)
    /\ globals !! "pr_name" = Some (Value (VInt n))
    /\ pulls h !! (repo_name, n) = Some pr
    /\ py_getitem d "title" = Ret (VStr (title pr))
    /\ py_getitem d "author" = Ret (VStr (user_login pr))
    /\ py_getitem d "state" = Ret (VStr (state pr))
    /\ py_getitem d "base_branch" = Ret (VStr (base_ref pr))
    /\ py_getitem d "head_branch" = Ret (VStr (head_ref pr))
    /\ exists names,
         py_getitem d "changed_files" = Ret (VList (map VStr names))
         /\ length names = length (files pr)
         /\ forall (i : nat) f, files pr !! i = Some f -> names !! i = Some (filename f).
Proof.
  intros Hret.
  destruct (get_pr_details_inv _ _ _ _ _ _ Hret)
    as (repo_name & n & pr & Hrepo & Hname & Hpr & -> & _).
  exists repo_name, n, pr.
  do 8 (split; [assumption || reflexivity|]).
  exists (map filename (files pr)).
  split; [reflexivity|]. split; [apply length_map|].
  intros i f Hf. by rewrite list_lookup_fmap, Hf.
Qed.

Lemma snapshot_mirrors_the_pull_request_witness :
  get_pr_details Demo.bound_globals Demo.agent 42 Demo.host
  = (Ret Demo.details, after_reads "octo/demo" 42 Demo.host)
  /\ py_getitem Demo.details "author" = Ret (VStr "octocat")
  /\ py_getitem Demo.details "changed_files" = Ret (VList [VStr "a.py"; VStr "b.py"]).
Proof.
  pose proof demo_details as Hret.
  split; [exact Hret|].
  destruct (snapshot_mirrors_the_pull_request _ _ _ _ _ _ Hret)
    as (repo_name & n & pr & Hrepo & Hname & Hpr & _ & Hauthor & _).
  demo_pull Hrepo Hname Hpr.
  split; [exact Hauthor | reflexivity].
Defined.

(** X5.  What a block shows for a file that has a [patch] attribute is the
    attribute as [str] prints it: a text is shown as it is, and [None], which
    the attribute holds when the service sent no patch, is shown as the text
    [None]; the sentinel is not used for it. *)
Theorem present_patch_is_printed_as_it_is globals self number h d h' :
  get_pr_details globals self number h = (Ret d, h') ->
  exists repo_name n pr blocks,
    globals !! "repo" = Some (Repository repo_name)
    /\ globals !! "pr_name" = Some (Value (VInt n))
    /\ pulls h !! (repo_name, n) = Some pr
    /\ py_getitem d "file_patches" = Ret (VStr (join (nl +:+ nl) blocks))
    /\ (forall (i : nat) f text,
          files pr !! i = Some f -> patch f = Some (VStr text) ->
          blocks !! i
          = Some ("File: " +:+ filename f +:+ nl +:+ "Status: " +:+ status f +:+ nl
                  +:+ "Patch:" +:+ nl +:+ text))
    /\ (forall (i : nat) f,
          files pr !! i = Some f -> patch f = Some VNone ->
          blocks !! i
          = Some ("File: " +:+ filename f +:+ nl +:+ "Status: " +:+ status f +:+ nl
                  +:+ "Patch:" +:+ nl +:+ "None")).
Proof.
  intros Hret.
  destruct (get_pr_details_inv _ _ _ _ _ _ Hret)
    as (repo_name & n & pr & Hrepo & Hname & Hpr & -> & _).
  exists repo_name, n, pr, (map file_block (files pr)).
  do 4 (split; [assumption || reflexivity|]).
  split.
  - intros i f text Hf Hpatch. rewrite list_lookup_fmap, Hf. simpl.
    unfold file_block, patch_or_sentinel. by rewrite Hpatch.
  - intros i f Hf Hpatch. rewrite list_lookup_fmap, Hf. simpl.
    unfold file_block, patch_or_sentinel. by rewrite Hpatch.
Qed.

Lemma present_patch_is_printed_as_it_is_witness :
  exists d h' blocks,
    get_pr_details Sample.globals7 Demo.agent 7 Sample.host = (Ret d, h')
    /\ py_getitem d "file_patches" = Ret (VStr (join (nl +:+ nl) blocks))
    /\ blocks !! 0%nat
       = Some ("File: logo.png" +:+ nl +:+ "Status: added" +:+ nl
               +:+ "Patch:" +:+ nl +:+ "None").
Proof.
  assert (get_pr_details Sample.globals7 Demo.agent 7 Sample.host
          = (Ret (snapshot Sample.pr7 ["logo.png"] [file_block Sample.logo_png]),
             after_reads "octo/demo" 7 Sample.host)) as Hret
    by (vm_compute; reflexivity).
  destruct (present_patch_is_printed_as_it_is _ _ _ _ _ _ Hret)
    as (repo_name & n & pr & blocks & Hrepo & Hname & Hpr & Hd & _ & Hnone).
  eexists _, _, blocks. split; [exact Hret|]. split; [exact Hd|].
  assert (Sample.globals7 !! "repo" = Some (Repository "octo/demo")) as E by reflexivity.
  rewrite E in Hrepo. injection Hrepo as <-. clear E.
  assert (Sample.globals7 !! "pr_name" = Some (Value (VInt 7))) as E by reflexivity.
  rewrite E in Hname. injection Hname as <-. clear E.
  assert (pulls Sample.host !! ("octo/demo", 7) = Some Sample.pr7) as E by reflexivity.
  rewrite E in Hpr. injection Hpr as <-. clear E.
  apply (Hnone 0%nat Sample.logo_png); reflexivity.
Defined.

(** X6.  A global name that is not bound stops [get_pr_details] before any
    request: [NameError] for [repo] when it is missing, and [NameError] for
    [pr_name] when [repo] is a repository and [pr_name] is missing. *)
Theorem unbound_name_stops_before_any_request globals self number h :
  (globals !! "repo" = None ->
     get_pr_details globals self number h = (Raise (NameError "repo"), h))
  /\ (forall repo_name,
        globals !! "repo" = Some (Repository repo_name) ->
        globals !! "pr_name" = None ->
        get_pr_details globals self number h = (Raise (NameError "pr_name"), h)).
Proof.
  unfold get_pr_details, bind, lookup_name. split.
  - by intros ->.
  - by intros repo_name -> ->.
Qed.

Lemma unbound_name_stops_before_any_request_witness :
  get_pr_details Sample.globals_repo_only Demo.agent 7 Sample.host
  = (Raise (NameError "pr_name"), Sample.host).
Proof.
  apply (proj2 (unbound_name_stops_before_any_request
                  Sample.globals_repo_only Demo.agent 7 Sample.host) "octo/demo");
    reflexivity.
Defined.

(** ** [review_pull_request] *)

(** X7.  [review_pull_request] returns for no input.  It ends as
    [get_pr_details] does when that raises, and in [KeyError] for [bug]
    otherwise; so the completion service is never called and no text is ever
    decoded, and the outcome depends on the global names and the state of the
    service only, not on the agent, the number or the decoder. *)
Theorem review_pull_request_never_returns json_loads globals self number h :
  review_pull_request json_loads globals self number h
  = match get_pr_details globals self number h with
    | (Ret _, h') => (Raise (KeyError "bug"), h')
    | (Raise e, h') => (Raise e, h')
    end
  /\ (forall review h', review_pull_request json_loads globals self number h <> (Ret review, h'))
  /\ (forall json_loads' self' number',
        review_pull_request json_loads globals self number h
        = review_pull_request json_loads' globals self' number' h).
Proof.
  assert (forall jl s k,
            review_pull_request jl globals s k h
            = match get_pr_details globals self number h with
              | (Ret _, h') => (Raise (KeyError "bug"), h')
              | (Raise e, h') => (Raise e, h')
              end) as Hshape.
  { intros jl s k. unfold review_pull_request, bind.
    change (get_pr_details globals s k h) with (get_pr_details globals self number h).
    destruct (get_pr_details globals self number h) as [[d|e] h'] eqn:Hret; [|reflexivity].
    destruct (get_pr_details_inv _ _ _ _ _ _ Hret)
      as (repo_name & n & pr & _ & _ & _ & -> & _).
    unfold pure. by rewrite review_chain_snapshot. }
  split; [apply Hshape|]. split.
  - intros review h'. rewrite Hshape.
    by destruct (get_pr_details globals self number h) as [[d|e] h''].
  - intros jl s k. by rewrite !Hshape.
Qed.

(** X8.  On a dictionary that has the keys [title], [description], [bug],
    [changed_files] and [file_patches], with a list of texts under
    [changed_files], line 115-121 give the five inputs of the prompt:
    [pr_author] is what is under [bug], and [changed_files] is the texts
    joined by a comma and a space. *)
Theorem assign_fills_the_five_inputs entries t dsc a names p :
  entry "title" entries = Some t ->
  entry "description" entries = Some dsc ->
  entry "bug" entries = Some a ->
  entry "changed_files" entries = Some (VList (map VStr names)) ->
  entry "file_patches" entries = Some p ->
  assign (VDict entries)
  = Ret (VDict
           [("pr_title", t); ("pr_description", dsc); ("pr_author", a);
            ("changed_files", VStr (join ", " names)); ("code_patches", p)]).
Proof.
  intros Ht Hd Ha Hc Hp. unfold assign, py_getitem.
  rewrite Ht, Hd, Ha, Hc, Hp. simpl. by rewrite str_items_texts.
Qed.

Lemma assign_fills_the_five_inputs_witness :
  assign Sample.with_bug
  = Ret (VDict
           [("pr_title", VStr "Fix off-by-one");
            ("pr_description", VStr "No description provided");
            ("pr_author", VStr "octocat");
            ("changed_files", VStr "a.py, b.py");
            ("code_patches", VStr "File: a.py")]).
Proof.
  apply (assign_fills_the_five_inputs _ (VStr "Fix off-by-one")
           (VStr "No description provided") (VStr "octocat") ["a.py"; "b.py"]
           (VStr "File: a.py")); reflexivity.
Defined.

(** ** The fallback record *)

(** X11.  The comment made of a fallback record does not show the text that
    could not be decoded: it is the same comment whatever that text is, with
    the fixed message as assessment, the four default sentences, and [N/A]
    as score. *)
Theorem unparsed_review_comment_omits_the_text pr_number review_str :
  comment pr_number (unparsed_review review_str)
  = Ret (comment_text (pretty pr_number) "Unable to parse review details"
           "No specific strengths noted" "No specific concerns identified"
           "No specific recommendations" "No specific recommendations" "N/A")
  /\ forall other, comment pr_number (unparsed_review review_str)
                   = comment pr_number (unparsed_review other).
Proof. split; reflexivity. Qed.

(** ** [post_review_comment] *)

Lemma str_items_texts_only items :
  forallb is_text items = true -> exists texts, str_items items = Ret texts.
Proof.
  induction items as [|v items IH]; simpl; [eauto|].
  destruct v; simpl; try discriminate.
  intros Hall. destruct (IH Hall) as [texts ->]. eauto.
Qed.

Lemma str_items_not_texts items :
  forallb is_text items = false -> str_items items = Raise TypeError.
Proof.
  induction items as [|v items IH]; simpl; [discriminate|].
  destruct v; simpl; try reflexivity.
  intros Hall. by rewrite (IH Hall).
Qed.

Lemma py_join_joinable sep v :
  joinable v = true -> exists text, py_join sep v = Ret text.
Proof.
  destruct v; simpl; try discriminate; eauto.
  intros Hall. destruct (str_items_texts_only _ Hall) as [texts ->]. eauto.
Qed.

Lemma py_join_not_joinable sep v :
  joinable v = false -> py_join sep v = Raise TypeError.
Proof.
  destruct v; simpl; try discriminate; try reflexivity.
  intros Hall. by rewrite (str_items_not_texts _ Hall).
Qed.

Lemma joined_field_outcome review_dict field default :
  (exists text, joined_field (VDict review_dict) field default = Ret text)
  \/ joined_field (VDict review_dict) field default = Raise TypeError.
Proof.
  unfold joined_field, py_get.
  destruct (entry field review_dict) as [v|]; simpl; [|eauto].
  destruct (joinable v) eqn:Hj.
  - left. by apply py_join_joinable.
  - right. by apply py_join_not_joinable.
Qed.

Lemma joined_field_joinable review_dict field default :
  (forall v, entry field review_dict = Some v -> joinable v = true) ->
  exists text, joined_field (VDict review_dict) field default = Ret text.
Proof.
  intros Hj. unfold joined_field, py_get.
  destruct (entry field review_dict) as [v|]; simpl; [|eauto].
  apply py_join_joinable. by apply Hj.
Qed.

Lemma joined_field_not_joinable review_dict field default v :
  entry field review_dict = Some v -> joinable v = false ->
  joined_field (VDict review_dict) field default = Raise TypeError.
Proof.
  intros Hentry Hj. unfold joined_field, py_get. rewrite Hentry. simpl.
  by apply py_join_not_joinable.
Qed.

(** The f-string, field by field. *)
Lemma comment_fields pr_number review_dict :
  comment pr_number review_dict
  = (overall_assessment <-
       py_get review_dict "overall_assessment" (VStr "No overall assessment provided") ;;
     strengths <- joined_field review_dict "strengths" "No specific strengths noted" ;;
     concerns <- joined_field review_dict "concerns" "No specific concerns identified" ;;
     recommendations <-
       joined_field review_dict "recommendations" "No specific recommendations" ;;
     test_plan <- joined_field review_dict "test_plan" "No specific recommendations" ;;
     code_quality_score <- py_get review_dict "code_quality_score" (VStr "N/A") ;;
     Ret (comment_text (pretty pr_number) (py_str overall_assessment) strengths concerns
            recommendations test_plan (py_str code_quality_score)))%exc.
Proof. reflexivity. Qed.

(** X12.  Rendering a review dictionary succeeds when each of [strengths],
    [concerns], [recommendations] and [test_plan] is absent or holds
    something [join] accepts (a list of texts, a text, a dictionary), and
    raises [TypeError] as soon as one of them holds anything else: a number,
    a truth value, [None], or a list with an item that is not a text. *)
Theorem comment_needs_joinable_fields pr_number review_dict :
  ((forall field v,
      In field ["strengths"; "concerns"; "recommendations"; "test_plan"] ->
      entry field review_dict = Some v -> joinable v = true) ->
   exists text, comment pr_number (VDict review_dict) = Ret text)
  /\ (forall field v,
        In field ["strengths"; "concerns"; "recommendations"; "test_plan"] ->
        entry field review_dict = Some v -> joinable v = false ->
        comment pr_number (VDict review_dict) = Raise TypeError).
Proof.
  rewrite comment_fields. split.
  - intros Hj.
    destruct (joined_field_joinable review_dict "strengths" "No specific strengths noted")
      as [s ->]; [intros v; apply Hj; simpl; tauto|].
    destruct (joined_field_joinable review_dict "concerns" "No specific concerns identified")
      as [c ->]; [intros v; apply Hj; simpl; tauto|].
    destruct (joined_field_joinable review_dict "recommendations"
                "No specific recommendations")
      as [r ->]; [intros v; apply Hj; simpl; tauto|].
    destruct (joined_field_joinable review_dict "test_plan" "No specific recommendations")
      as [t ->]; [intros v; apply Hj; simpl; tauto|].
    unfold py_get.
    destruct (entry "overall_assessment" review_dict);
      destruct (entry "code_quality_score" review_dict); simpl; eauto.
  - intros field v Hin Hentry Hj.
    assert (py_get (VDict review_dict) "overall_assessment"
              (VStr "No overall assessment provided")
            = Ret (default (VStr "No overall assessment provided")
                     (entry "overall_assessment" review_dict))) as ->
      by (unfold py_get; by destruct (entry "overall_assessment" review_dict)).
    simpl.
    destruct (joined_field_outcome review_dict "strengths" "No specific strengths noted")
      as [[s Hs] | Hs];
    destruct (joined_field_outcome review_dict "concerns" "No specific concerns identified")
      as [[c Hc] | Hc];
    destruct (joined_field_outcome review_dict "recommendations"
                "No specific recommendations")
      as [[r Hr] | Hr];
    destruct (joined_field_outcome review_dict "test_plan" "No specific recommendations")
      as [[t Ht] | Ht];
    rewrite ?Hs; simpl; rewrite ?Hc; simpl; rewrite ?Hr; simpl; rewrite ?Ht; simpl;
      try reflexivity.
    exfalso.
    destruct Hin as [<- | [<- | [<- | [<- | []]]]];
      [rewrite (joined_field_not_joinable _ _ _ _ Hentry Hj) in Hs
      |rewrite (joined_field_not_joinable _ _ _ _ Hentry Hj) in Hc
      |rewrite (joined_field_not_joinable _ _ _ _ Hentry Hj) in Hr
      |rewrite (joined_field_not_joinable _ _ _ _ Hentry Hj) in Ht]; discriminate.
Qed.

Lemma comment_needs_joinable_fields_witness :
  (exists text,
     comment 42 (VDict [("strengths", VList [VStr "Small"; VStr "Tested"])]) = Ret text)
  /\ comment 42 (VDict [("concerns", VNone)]) = Raise TypeError
  /\ comment 42 (VDict [("test_plan", VList [VStr "Run it"; VInt 2])]) = Raise TypeError.
Proof.
  split; [|split].
  - apply (proj1 (comment_needs_joinable_fields 42
                    [("strengths", VList [VStr "Small"; VStr "Tested"])])).
    intros field v [<- | [<- | [<- | [<- | []]]]]; simpl; try discriminate.
    by intros [= <-].
  - apply (proj2 (comment_needs_joinable_fields 42 [("concerns", VNone)])
             "concerns" VNone); simpl; auto.
  - apply (proj2 (comment_needs_joinable_fields 42
                    [("test_plan", VList [VStr "Run it"; VInt 2])])
             "test_plan" (VList [VStr "Run it"; VInt 2])); simpl; auto.
Defined.

Lemma joined_field_iterated review_dict field default section_body :
  joined_field (VDict review_dict) field default = Ret section_body ->
  iterated_section review_dict field section_body.
Proof.
  unfold joined_field, py_get, iterated_section. intros Hjoin. split.
  - intros text Hentry. rewrite Hentry in Hjoin. simpl in Hjoin. by injection Hjoin as <-.
  - intros entries Hentry. rewrite Hentry in Hjoin. simpl in Hjoin.
    by injection Hjoin as <-.
Qed.

(** X13.  A list field that holds a text instead of a list is rendered one
    character per line, and one that holds a dictionary is rendered as its
    keys, one per line: [join] iterates over whatever it is given. *)
Theorem text_in_a_list_field_is_split_into_characters pr_number review_dict text :
  comment pr_number (VDict review_dict) = Ret text ->
  exists overall strengths concerns recommendations test_plan score,
    text = comment_text (pretty pr_number) overall strengths concerns recommendations
             test_plan score
    /\ iterated_section review_dict "strengths" strengths
    /\ iterated_section review_dict "concerns" concerns
    /\ iterated_section review_dict "recommendations" recommendations
    /\ iterated_section review_dict "test_plan" test_plan.
Proof.
  rewrite comment_fields. intros Htext.
  apply bind_ret_inv in Htext as (a & _ & Htext).
  apply bind_ret_inv in Htext as (strengths & Hs & Htext).
  apply bind_ret_inv in Htext as (concerns & Hc & Htext).
  apply bind_ret_inv in Htext as (recommendations & Hr & Htext).
  apply bind_ret_inv in Htext as (test_plan & Ht & Htext).
  apply bind_ret_inv in Htext as (s & _ & Htext).
  injection Htext as <-.
  exists (py_str a), strengths, concerns, recommendations, test_plan, (py_str s).
  split; [reflexivity|].
  repeat split; eapply joined_field_iterated; eassumption.
Qed.

Lemma text_in_a_list_field_is_split_into_characters_witness :
  exists overall concerns recommendations test_plan score,
    comment 42 (VDict [("strengths", VStr "Good")])
    = Ret (comment_text "42" overall ("G" +:+ nl +:+ "o" +:+ nl +:+ "o" +:+ nl +:+ "d")
             concerns recommendations test_plan score).
Proof.
  destruct (comment 42 (VDict [("strengths", VStr "Good")])) as [text|e] eqn:Hcomment;
    [|discriminate].
  destruct (text_in_a_list_field_is_split_into_characters 42 _ _ Hcomment)
    as (overall & strengths & concerns & recommendations & test_plan & score
        & -> & Hs & _).
  exists overall, concerns, recommendations, test_plan, score.
  by rewrite (proj1 Hs "Good" eq_refl).
Defined.

(** X14.  A rendered comment opens with the heading for the number, in
    decimal, and the assessment: [No overall assessment provided] when the
    review has no [overall_assessment], and the value as [str] prints it when
    it has one, be it a text or not. *)
Theorem comment_opens_with_number_and_assessment pr_number review_dict text :
  comment pr_number (VDict review_dict) = Ret text ->
  (entry "overall_assessment" review_dict = None ->
     exists rest,
       text = "## PR Review for #" +:+ pretty pr_number +:+ nl +:+ nl
              +:+ "### Overall Assessment" +:+ nl +:+ "No overall assessment provided"
              +:+ nl +:+ nl +:+ "### Strengths" +:+ nl +:+ rest)
  /\ (forall v,
        entry "overall_assessment" review_dict = Some v ->
        exists rest,
          text = "## PR Review for #" +:+ pretty pr_number +:+ nl +:+ nl
                 +:+ "### Overall Assessment" +:+ nl +:+ py_str v
                 +:+ nl +:+ nl +:+ "### Strengths" +:+ nl +:+ rest).
Proof.
  intros Htext.
  destruct (comment_inv _ _ _ Htext)
    as (strengths & concerns & recommendations & test_plan & ->).
  unfold comment_text. split.
  - intros ->. eexists. reflexivity.
  - intros v ->. eexists. reflexivity.
Qed.

Lemma comment_opens_with_number_and_assessment_witness :
  exists text rest,
    comment (-3) (VDict [("overall_assessment", VList [VStr "ok"; VNone])]) = Ret text
    /\ text = "## PR Review for #-3" +:+ nl +:+ nl
              +:+ "### Overall Assessment" +:+ nl +:+ "['ok', None]"
              +:+ nl +:+ nl +:+ "### Strengths" +:+ nl +:+ rest.
Proof.
  destruct (proj2 (comment_opens_with_number_and_assessment (-3)
                     [("overall_assessment", VList [VStr "ok"; VNone])] _ eq_refl)
              (VList [VStr "ok"; VNone]) eq_refl) as [rest Hrest].
  eexists _, rest. split; [reflexivity|]. exact Hrest.
Defined.

(** X15.  [post_review_comment] looks the pull request up before it formats
    anything: when the service does not know the number, the client's
    exception is raised whatever the review is; when it does, the call
    returns [None] if the comment can be formatted and raises what the
    formatting raises if not.  Either way one request has been made. *)
Theorem post_review_comment_outcome self pr_number review_dict h :
  (pulls h !! (repo self, pr_number) = None ->
     post_review_comment self pr_number review_dict h
     = (Raise UnknownObjectException, received (GetPull (repo self) pr_number) h))
  /\ (forall pr text,
        pulls h !! (repo self, pr_number) = Some pr ->
        comment pr_number review_dict = Ret text ->
        post_review_comment self pr_number review_dict h
        = (Ret VNone, received (GetPull (repo self) pr_number) h))
  /\ (forall pr e,
        pulls h !! (repo self, pr_number) = Some pr ->
        comment pr_number review_dict = Raise e ->
        post_review_comment self pr_number review_dict h
        = (Raise e, received (GetPull (repo self) pr_number) h)).
Proof.
  unfold post_review_comment, bind, get_pull, pure, ret.
  split; [|split].
  - by intros ->.
  - by intros pr text -> ->.
  - by intros pr e -> ->.
Qed.

Lemma post_review_comment_outcome_witness :
  post_review_comment Demo.agent 8 (VInt 5) Demo.host
  = (Raise UnknownObjectException, received (GetPull "octo/demo" 8) Demo.host)
  /\ post_review_comment Demo.agent 42 (VDict []) Demo.host
     = (Ret VNone, received (GetPull "octo/demo" 42) Demo.host).
Proof.
  split.
  - apply (proj1 (post_review_comment_outcome Demo.agent 8 (VInt 5) Demo.host)).
    reflexivity.
  - eapply (proj1 (proj2 (post_review_comment_outcome Demo.agent 42 (VDict [])
                            Demo.host))); reflexivity.
Defined.

(** X16.  A decoded answer that is not a JSON object is returned by the
    decoding step as it is, and cannot be rendered: an array, a text, a
    number or [None] has no [get], so formatting the comment raises
    [AttributeError], and so does [post_review_comment] once it has found the
    pull request. *)
Theorem answer_that_is_no_object_cannot_be_rendered
    (json_loads : string -> outcome pyval) review_str v self pr_number pr h :
  json_loads review_str = Ret v ->
  (forall entries, v <> VDict entries) ->
  pulls h !! (repo self, pr_number) = Some pr ->
  parse_json_response json_loads review_str = Ret v
  /\ comment pr_number v = Raise (AttributeError "get")
  /\ post_review_comment self pr_number v h
     = (Raise (AttributeError "get"), received (GetPull (repo self) pr_number) h).
Proof.
  intros Hloads Hnot Hpr.
  split; [unfold parse_json_response; by rewrite Hloads|].
  pose proof (comment_of_non_dict pr_number v Hnot) as Hcomment.
  split; [exact Hcomment|].
  unfold post_review_comment, bind, get_pull, pure, ret. by rewrite Hpr, Hcomment.
Qed.

Lemma answer_that_is_no_object_cannot_be_rendered_witness :
  parse_json_response Json.loads "[1, 2]" = Ret (VList [VInt 1; VInt 2])
  /\ post_review_comment Demo.agent 42 (VList [VInt 1; VInt 2]) Demo.host
     = (Raise (AttributeError "get"), received (GetPull "octo/demo" 42) Demo.host).
Proof.
  destruct (answer_that_is_no_object_cannot_be_rendered Json.loads "[1, 2]"
              (VList [VInt 1; VInt 2]) Demo.agent 42 Demo.pr42 Demo.host)
    as (Hparse & _ & Hpost); [vm_compute; reflexivity | discriminate | reflexivity |].
  split; [exact Hparse | exact Hpost].
Defined.

(** X17.  The comment reads six keys of the review and nothing else: two
    reviews that agree on [overall_assessment], [strengths], [concerns],
    [recommendations], [test_plan] and [code_quality_score] give the same
    comment, or the same exception, whatever else they hold. *)
Theorem comment_reads_six_keys_only pr_number review_dict review_dict' :
  (forall key, In key comment_keys -> entry key review_dict = entry key review_dict') ->
  comment pr_number (VDict review_dict) = comment pr_number (VDict review_dict').
Proof.
  intros Hsame. unfold comment, py_get.
  rewrite <- !Hsame by (unfold comment_keys; simpl; tauto).
  reflexivity.
Qed.

Lemma comment_reads_six_keys_only_witness :
  comment 42 (VDict [("overall_assessment", VStr "Looks good");
                     ("raw_review", VStr "LGTM"); ("labels", VList [VInt 1])])
  = comment 42 (VDict [("overall_assessment", VStr "Looks good")]).
Proof.
  apply comment_reads_six_keys_only.
  intros key [<- | [<- | [<- | [<- | [<- | [<- | []]]]]]]; reflexivity.
Defined.

(** ** The constructor and [main] *)

Lemma bind_arguments_unexpected {A : Type} (params : list string)
    (kwargs : list (string * A)) key v :
  In (key, v) kwargs -> ~ In key params ->
  bind_arguments params kwargs = Raise TypeError.
Proof.
  intros Hin Hnot. unfold bind_arguments.
  destruct (forallb _ kwargs) eqn:Hall; [|reflexivity].
  exfalso. rewrite forallb_forall in Hall.
  specialize (Hall (key, v) Hin). simpl in Hall.
  apply existsb_exists in Hall as (p & Hp & Heq).
  apply String.eqb_eq in Heq. by subst.
Qed.

(** X18.  The class can be called with the keywords [github_token],
    [repo_name] and [llmn] only: any other keyword, [llm] among them, is a
    [TypeError] raised before the body of [__init__] runs and before anything
    reaches the service; with the three keywords the body runs on their
    values. *)
Theorem constructor_takes_llmn_not_llm
    (init_body : list arg -> M GitHubPRReviewAgent) (h : hosting) :
  (forall kwargs key v,
     In (key, v) kwargs -> ~ In key ["github_token"; "repo_name"; "llmn"] ->
     init init_body kwargs h = (Raise TypeError, h))
  /\ (forall token name model,
        init init_body [("github_token", token); ("repo_name", name); ("llm", model)] h
        = (Raise TypeError, h))
  /\ (forall token name model,
        init init_body [("github_token", token); ("repo_name", name); ("llmn", model)] h
        = init_body [token; name; model] h).
Proof.
  split; [|split].
  - intros kwargs key v Hin Hnot. unfold init, bind, pure.
    by rewrite (bind_arguments_unexpected _ _ key v Hin Hnot).
  - reflexivity.
  - reflexivity.
Qed.

Lemma constructor_takes_llmn_not_llm_witness :
  init (fun _ => ret Demo.agent)
    [("repo_name", AStr "octo/demo"); ("token", AStr "t0ken")] Demo.host
  = (Raise TypeError, Demo.host).
Proof.
  apply (proj1 (constructor_takes_llmn_not_llm (fun _ => ret Demo.agent) Demo.host)
           _ "token" (AStr "t0ken")).
  - simpl. tauto.
  - intros [H | [H | [H | []]]]; discriminate.
Defined.

(** X19.  [main] never gets to review anything.  It builds the language
    model and reads [GITHUB_TOKEN] and [REPO_NAME], then calls the class with
    the keyword [llm], which [__init__] does not have: whatever the
    environment, [main] ends in an exception, and the service has received no
    request.  When the model is built and the two variables are set, the
    exception is that [TypeError]; when one of them is not set, it is the
    [KeyError] for it. *)
Theorem main_stops_at_the_constructor
    (json_loads : string -> outcome pyval) (globals : gmap string obj)
    (ChatOpenAI : pyval -> pyval -> pyval -> pyval
                  -> outcome (list (string * string) -> outcome string))
    (init_body : list arg -> M GitHubPRReviewAgent)
    (int : string -> outcome Z) (json_dumps : pyval -> outcome string)
    (environ : gmap string string) (h : hosting) :
  let built :=
    ChatOpenAI
      (getenv environ "MODEL"
         (VStr "/var/home/cloud-user/.cache/instructlab/models/granite-7b-redhat-lab"))
      (VFloat "0.2") (getenv environ "API_KEY" VNone)
      (getenv environ "LLM_ENDPOINT" VNone) in
  let run := main json_loads globals ChatOpenAI init_body int json_dumps environ h in
  (exists e, run = (Raise e, h))
  /\ (forall model token name,
        built = Ret model ->
        environ !! "GITHUB_TOKEN" = Some token ->
        environ !! "REPO_NAME" = Some name ->
        run = (Raise TypeError, h))
  /\ (forall model,
        built = Ret model ->
        environ !! "GITHUB_TOKEN" = None ->
        run = (Raise (KeyError "GITHUB_TOKEN"), h))
  /\ (forall model token,
        built = Ret model ->
        environ !! "GITHUB_TOKEN" = Some token ->
        environ !! "REPO_NAME" = None ->
        run = (Raise (KeyError "REPO_NAME"), h)).
Proof.
  intros built run. subst built run.
  unfold main, bind, pure, environ_item.
  destruct (ChatOpenAI _ _ _ _) as [model|e]; [|repeat split; eauto; discriminate].
  destruct (environ !! "GITHUB_TOKEN") as [token|];
    [|repeat split; eauto; discriminate].
  destruct (environ !! "REPO_NAME") as [name|];
    [|repeat split; eauto; discriminate].
  repeat split; eauto; discriminate.
Qed.

Lemma main_stops_at_the_constructor_witness :
  main Json.loads Sample.globals7 (fun _ _ _ _ => Ret (llm Demo.agent))
    (fun _ => ret Demo.agent) (fun _ => Ret 7) (fun _ => Ret "{}")
    {[ "GITHUB_TOKEN" := "t0ken"; "REPO_NAME" := "octo/demo"; "PR_NUM" := "7" ]}
    Sample.host
  = (Raise TypeError, Sample.host).
Proof.
  eapply (proj1 (proj2 (main_stops_at_the_constructor Json.loads Sample.globals7
                          (fun _ _ _ _ => Ret (llm Demo.agent))
                          (fun _ => ret Demo.agent) (fun _ => Ret 7) (fun _ => Ret "{}")
                          {[ "GITHUB_TOKEN" := "t0ken"; "REPO_NAME" := "octo/demo";
                             "PR_NUM" := "7" ]}
                          Sample.host)));
    reflexivity.
Defined.
